(** * Exoplanet classifier service: the prediction back end

    A shallow embedding of the Express server of the repository
    (the [mockPredict] function and the [POST /predict] handler) and the
    properties of its validation, scoring and feature ranking.

    Numbers.  A JavaScript number is modelled as an extended rational:
    [NaN], the two infinities, or a finite value carried as a [Q].
    Arithmetic on finite values is exact (binary64 rounding and the sign of
    zero are outside the model); the special values follow IEEE 754 as
    JavaScript does.

    Randomness.  [Math.random] reads a tape of draws at a position that
    every call advances; the code that calls it lives in a small state
    monad over that source.

    Strings.  A JavaScript string is held as the bytes of its UTF-8
    encoding: white space and lengths are read off those bytes as
    JavaScript reads them off the characters.

    Exceptions.  A computation that JavaScript may abandon with a
    [TypeError] returns a [completion]: its value, or the message thrown.

    Dashboard.  Module [App] holds the React component of the front end:
    its state, the handlers for editing, uploading and classifying, and
    the values it displays.  [JSON.parse] is a parameter of the upload
    handler; the back end is taken to be reachable.

    Rounding.  Module [Binary64] repeats the scoring arithmetic on IEEE 754
    doubles, the numbers the server really computes with, to check that
    rounding does not change what the exact model shows; the numbers the
    dashboard displays (chart bars, confidence) are stated there. *)

From Stdlib Require Import QArith Qabs ZArith List String Ascii Bool.
From Stdlib Require Import Lia Lqa Sorted Permutation.
From Stdlib Require Floats.
From Stdlib Require DecimalString DecimalNat DecimalFacts.
Import ListNotations.

(* ================================================================== *)
(** ** JavaScript numbers *)

Module JS.

Inductive number : Type :=
| NaN
| NegInfinity
| Finite (q : Q)
| Infinity.

Definition Qltb (a b : Q) : bool := negb (Qle_bool b a).

(** [x < y]; every comparison with [NaN] is false. *)
Definition lt (x y : number) : bool :=
  match x, y with
  | NaN, _ | _, NaN => false
  | _, NegInfinity => false
  | NegInfinity, _ => true
  | Infinity, _ => false
  | Finite _, Infinity => true
  | Finite a, Finite b => Qltb a b
  end.

(** [x > y]. *)
Definition gt (x y : number) : bool := lt y x.

(** [x === y] on numbers: [NaN] differs from everything, itself too. *)
Definition strict_eq (x y : number) : bool :=
  match x, y with
  | NegInfinity, NegInfinity => true
  | Infinity, Infinity => true
  | Finite a, Finite b => Qeq_bool a b
  | _, _ => false
  end.

Definition neg (x : number) : number :=
  match x with
  | NaN => NaN
  | NegInfinity => Infinity
  | Finite a => Finite (- a)
  | Infinity => NegInfinity
  end.

(** [x + y]. *)
Definition add (x y : number) : number :=
  match x, y with
  | NaN, _ | _, NaN => NaN
  | Infinity, NegInfinity | NegInfinity, Infinity => NaN
  | Infinity, _ | _, Infinity => Infinity
  | NegInfinity, _ | _, NegInfinity => NegInfinity
  | Finite a, Finite b => Finite (a + b)
  end.

(** [x - y]. *)
Definition sub (x y : number) : number := add x (neg y).

(** Sign of a finite value, used by the infinite cases of [mul] and [div]. *)
Definition signed_infinity (s : Q) : number :=
  if Qltb 0 s then Infinity else if Qltb s 0 then NegInfinity else NaN.

(** [x * y]. *)
Definition mul (x y : number) : number :=
  match x, y with
  | NaN, _ | _, NaN => NaN
  | Finite a, Finite b => Finite (a * b)
  | Finite a, Infinity | Infinity, Finite a => signed_infinity a
  | Finite a, NegInfinity | NegInfinity, Finite a => signed_infinity (- a)
  | Infinity, Infinity | NegInfinity, NegInfinity => Infinity
  | Infinity, NegInfinity | NegInfinity, Infinity => NaN
  end.

(** [x / y].  A finite value over zero is an infinity of its sign, zero
    over zero is [NaN]. *)
Definition div (x y : number) : number :=
  match x, y with
  | NaN, _ | _, NaN => NaN
  | Finite a, Finite b =>
      if Qeq_bool b 0 then signed_infinity a else Finite (a / b)
  | Finite _, _ => Finite 0
  | Infinity, Finite b => if Qltb b 0 then NegInfinity else Infinity
  | NegInfinity, Finite b => if Qltb b 0 then Infinity else NegInfinity
  | _, _ => NaN
  end.

(** [Math.abs]. *)
Definition Math_abs (x : number) : number :=
  match x with
  | NaN => NaN
  | NegInfinity | Infinity => Infinity
  | Finite a => Finite (Qabs a)
  end.

(** [isNaN] on a number. *)
Definition isNaN (x : number) : bool :=
  match x with NaN => true | _ => false end.

(** The larger of two numbers, [NaN] if either is. *)
Definition max2 (x y : number) : number :=
  match x, y with
  | NaN, _ | _, NaN => NaN
  | _, _ => if lt x y then y else x
  end.

(** [Math.max(...xs)]: the running maximum starts at [-Infinity]. *)
Definition Math_max (xs : list number) : number :=
  fold_left max2 xs NegInfinity.

(** [xs.indexOf(x)] on an array of numbers: the first index holding a
    value strictly equal to [x], or [-1]. *)
Fixpoint indexOf_from (i : Z) (xs : list number) (x : number) : Z :=
  match xs with
  | [] => (-1)%Z
  | y :: t => if strict_eq y x then i else indexOf_from (i + 1)%Z t x
  end.

Definition indexOf (xs : list number) (x : number) : Z :=
  indexOf_from 0%Z xs x.

(** [xs[i]]: [None] stands for [undefined]. *)
Definition item {A : Type} (xs : list A) (i : Z) : option A :=
  if (i <? 0)%Z then None else nth_error xs (Z.to_nat i).

(** [xs.slice(b, e)] for non-negative bounds. *)
Definition slice {A : Type} (b e : nat) (xs : list A) : list A :=
  firstn (e - b) (skipn b xs).

Section Sort.
Variable A : Type.
Variable compareFn : A -> A -> number.

(** [Array.prototype.sort] is stable (ECMAScript 2019 on): the
    comparator's result moves [x] behind [y] only when it is positive;
    zero, a negative value and [NaN] (read as zero) leave [x] in front.
    Elements are inserted from the last to the first, each in front of
    the ones that followed it. *)
Fixpoint insert (x : A) (l : list A) : list A :=
  match l with
  | [] => [x]
  | y :: t => if gt (compareFn x y) (Finite 0) then y :: insert x t
              else x :: l
  end.

Definition sort (l : list A) : list A := fold_right insert [] l.
End Sort.

Arguments insert {A} compareFn x l.
Arguments sort {A} compareFn l.

End JS.

Import JS.
Coercion Finite : Q >-> number.

(* ================================================================== *)
(** ** The random source *)

(** [Math.random] is the one piece of state of the server: a tape of
    draws and the position of the next one. *)
Record entropy : Type := { tape : nat -> Q; pos : nat }.

(** A well-formed source draws from the half-open unit interval, as
    [Math.random] does: [0 <= r < 1]. *)
Definition unit_draws (s : entropy) : Prop :=
  forall n, 0 <= tape s n /\ tape s n < 1.

Definition Rand (A : Type) : Type := entropy -> A * entropy.

Definition ret {A : Type} (a : A) : Rand A := fun s => (a, s).

Definition bind {A B : Type} (m : Rand A) (k : A -> Rand B) : Rand B :=
  fun s => let (a, s') := m s in k a s'.

Notation "x <- m ;; k" := (bind m (fun x => k))
  (at level 61, m at next level, right associativity).

Definition Math_random : Rand number :=
  fun s => (Finite (tape s (pos s)), {| tape := tape s; pos := S (pos s) |}).

(** [xs.map((x, index) => ...)] with a callback that may draw: elements
    are visited from index 0 upwards. *)
Fixpoint map_from {A B : Type} (f : A -> nat -> Rand B) (index : nat)
    (xs : list A) : Rand (list B) :=
  match xs with
  | [] => ret []
  | x :: t =>
      y <- f x index ;;
      ys <- map_from f (S index) t ;;
      ret (y :: ys)
  end.

Definition Array_map {A B : Type} (f : A -> nat -> Rand B) (xs : list A)
  : Rand (list B) := map_from f 0 xs.

(* ================================================================== *)
(** ** [mockPredict] *)

Open Scope string_scope.

Record ShapValue : Type :=
  { feature : option string;   (* [None]: [featureNames[index]] undefined *)
    importance : number;
    value : number }.

Record Probabilities : Type :=
  { Confirmed : number; Candidate : number; False_Positive : number }.

Record Prediction : Type :=
  { predicted_class : option string;   (* [None]: [labels[-1]] *)
    probabilities : Probabilities;
    top_features : list ShapValue }.

Definition labels : list string :=
  ["Confirmed"; "Candidate"; "False Positive"].

Definition featureNames : list string :=
  ["koi_period"; "koi_prad"; "koi_sma"; "koi_incl";
   "koi_teq"; "koi_slogg"; "koi_srad"; "koi_smass"; "koi_steff"].

(** Array destructuring [const [a, b, ...] = features].  A missing element
    is [undefined], which every comparison converts to [NaN]. *)
Definition destructure (features : list number) (i : nat) : number :=
  nth i features NaN.

(** The three weights before normalisation: the base values and the three
    heuristic rules. *)
Definition heuristics (features : list number) : number * number * number :=
  let koi_period := destructure features 0 in
  let koi_prad := destructure features 1 in
  let koi_teq := destructure features 4 in
  let confirmedProb : number := 0.33 in
  let candidateProb : number := 0.33 in
  let falsePositiveProb : number := 0.34 in
  let confirmedProb :=
    if gt koi_prad 0.5 && lt koi_prad 4 && gt koi_teq 200 && lt koi_teq 400
    then add confirmedProb 0.2 else confirmedProb in
  let falsePositiveProb :=
    if gt koi_prad 10 then add falsePositiveProb 0.3
    else falsePositiveProb in
  let falsePositiveProb :=
    if lt koi_period 1 then add falsePositiveProb 0.2
    else falsePositiveProb in
  (confirmedProb, candidateProb, falsePositiveProb).

(** Normalisation: each weight over the sum of the three. *)
Definition normalize (w : number * number * number)
  : number * number * number :=
  let '(confirmedProb, candidateProb, falsePositiveProb) := w in
  let total := add (add confirmedProb candidateProb) falsePositiveProb in
  (div confirmedProb total, div candidateProb total,
   div falsePositiveProb total).

(** The callback of [features.map]: one draw per feature. *)
Definition shap_of (value : number) (index : nat) : Rand ShapValue :=
  r <- Math_random ;;
  ret {| feature := nth_error featureNames index;
         importance := mul (sub r 0.5) 2;
         value := value |}.

(** The comparator handed to [sort]. *)
Definition by_abs_importance (a b : ShapValue) : number :=
  sub (Math_abs (importance b)) (Math_abs (importance a)).

(** [shapValues.sort(...).slice(0, k)]; the source fixes [k] at 3. *)
Definition rank_features (k : nat) (shapValues : list ShapValue)
  : list ShapValue :=
  slice 0 k (sort by_abs_importance shapValues).

Definition mockPredict (features : list number) : Rand Prediction :=
  let '(confirmedProb, candidateProb, falsePositiveProb) :=
    normalize (heuristics features) in
  let probs := [confirmedProb; candidateProb; falsePositiveProb] in
  let maxIndex := indexOf probs (Math_max probs) in
  let predictedLabel := item labels maxIndex in
  shapValues <- Array_map shap_of features ;;
  let topFeatures := rank_features 3 shapValues in
  ret {| predicted_class := predictedLabel;
         probabilities :=
           {| Confirmed := confirmedProb;
              Candidate := candidateProb;
              False_Positive := falsePositiveProb |};
         top_features := topFeatures |}.

(* ================================================================== *)
(** ** Request values and [parseFloat] *)

(** What [express.json()] hands to the handler. *)
#[local] Set Warnings "-register-all".
Inductive json : Type :=
| JNull
| JBool (b : bool)
| JNum (n : number)
| JStr (s : string)
| JArr (items : list json)
| JObj (fields : list (string * json)).

(** The outcome of a computation that may throw. *)
Inductive completion (A : Type) : Type :=
| Normal (a : A)
| Throw (message : string).

Arguments Normal {A} a.
Arguments Throw {A} message.

(** [xs.map(f)] for a callback that may throw: elements are visited in
    order and the first throw ends the loop. *)
Fixpoint map_completion {A B : Type} (f : A -> completion B) (xs : list A)
  : completion (list B) :=
  match xs with
  | [] => Normal []
  | x :: t =>
      match f x with
      | Throw message => Throw message
      | Normal y =>
          match map_completion f t with
          | Throw message => Throw message
          | Normal ys => Normal (y :: ys)
          end
      end
  end.

Module Parse.

(** The one-byte white space: TAB, LF, VT, FF, CR, SP. *)
Definition is_space (c : ascii) : bool :=
  let n := nat_of_ascii c in
  ((9 <=? n) && (n <=? 13) || (n =? 32))%nat.

(** How many bytes the [StrWhiteSpaceChar] in front of [s] takes, 0 when
    [s] does not start with one.  Beside the one-byte characters these
    are U+00A0 (C2 A0), U+1680 (E1 9A 80), U+2000 to U+200A, U+2028,
    U+2029 and U+202F (E2 80 xx), U+205F (E2 81 9F), U+3000 (E3 80 80)
    and U+FEFF (EF BB BF). *)
Definition space_width (s : string) : nat :=
  match s with
  | EmptyString => 0
  | String c1 t1 =>
      let n1 := nat_of_ascii c1 in
      if (n1 <? 128)%nat then (if is_space c1 then 1 else 0)%nat
      else
        match t1 with
        | EmptyString => 0
        | String c2 t2 =>
            let n2 := nat_of_ascii c2 in
            if ((n1 =? 194) && (n2 =? 160))%nat then 2%nat
            else
              match t2 with
              | EmptyString => 0
              | String c3 _ =>
                  let n3 := nat_of_ascii c3 in
                  if ((n1 =? 225) && (n2 =? 154) && (n3 =? 128)
                      || (n1 =? 226) && (n2 =? 128)
                         && ((128 <=? n3) && (n3 <=? 138)
                             || (n3 =? 168) || (n3 =? 169) || (n3 =? 175))
                      || (n1 =? 226) && (n2 =? 129) && (n3 =? 159)
                      || (n1 =? 227) && (n2 =? 128) && (n3 =? 128)
                      || (n1 =? 239) && (n2 =? 187) && (n3 =? 191))%nat
                  then 3%nat else 0%nat
              end
        end
  end.

Definition is_digit (c : ascii) : bool :=
  let n := nat_of_ascii c in ((48 <=? n) && (n <=? 57))%nat.

Definition digit_value (c : ascii) : Z := Z.of_nat (nat_of_ascii c - 48).

(** Dropping leading white space: [skip] counts the bytes still to drop
    of the character being removed. *)
Fixpoint drop_space (skip : nat) (s : string) : string :=
  match skip with
  | S k =>
      match s with
      | String _ t => drop_space k t
      | EmptyString => EmptyString
      end
  | O =>
      match space_width s with
      | O => s
      | S w =>
          match s with
          | String _ t => drop_space w t
          | EmptyString => s
          end
      end
  end.

Definition trim_start (s : string) : string := drop_space 0 s.

(** The longest run of decimal digits in front of [s]: its value on top
    of [acc], how many digits were read on top of [n], and the rest. *)
Fixpoint digits (s : string) (acc : Z) (n : nat) : Z * nat * string :=
  match s with
  | String c t =>
      if is_digit c then digits t (10 * acc + digit_value c)%Z (S n)
      else (acc, n, s)
  | EmptyString => (acc, n, s)
  end.

(** [ExponentPart]: [e] or [E], an optional sign and at least one digit;
    anything else is not an exponent and is left unread. *)
Definition exponent (s : string) : Z :=
  match s with
  | String c t =>
      if (Ascii.eqb c "e" || Ascii.eqb c "E")%bool then
        let '(sign, t') :=
          match t with
          | String "+" u => (1%Z, u)
          | String "-" u => ((-1)%Z, u)
          | _ => (1%Z, t)
          end in
        let '(v, n, _) := digits t' 0%Z 0%nat in
        if (n =? 0)%nat then 0%Z else (sign * v)%Z
      else 0%Z
  | EmptyString => 0%Z
  end.

(** The longest prefix that is a [StrUnsignedDecimalLiteral]:
    [Infinity], or digits with an optional fraction and exponent, at
    least one digit before or after the point.  The value is the exact
    value of the literal: rounding to a double, and with it overflow to
    [Infinity] and underflow to zero, is outside the model. *)
Definition unsigned_literal (s : string) : number :=
  if prefix "Infinity" s then Infinity
  else
    let '(int_part, int_len, r1) := digits s 0%Z 0%nat in
    let '(frac_part, frac_len, r2) :=
      match r1 with
      | String "." t => digits t 0%Z 0%nat
      | _ => (0%Z, 0%nat, r1)
      end in
    if ((int_len =? 0) && (frac_len =? 0))%nat then NaN
    else
      let scale := (10 ^ Z.of_nat frac_len)%Z in
      let mantissa := inject_Z (int_part * scale + frac_part) / inject_Z scale in
      Finite (mantissa * Qpower 10 (exponent r2)).

(** [parseFloat] on a string: leading white space is skipped, a sign is
    read, and the longest numeric prefix gives the value; [NaN] when there
    is none. *)
Definition parseFloat_string (s : string) : number :=
  match trim_start s with
  | String "+" t => unsigned_literal t
  | String "-" t => neg (unsigned_literal t)
  | t => unsigned_literal t
  end.

End Parse.

Fixpoint own_property (name : string) (fields : list (string * json))
  : option json :=
  match fields with
  | [] => None
  | (k, v) :: t => if String.eqb k name then Some v else own_property name t
  end.

(** Whether [ToString(v)] completes.  An object is printed by its
    [toString] method; an own property of that name, which in parsed JSON
    is never a function, hides the inherited method, and the conversion
    throws.  An array prints every one of its elements (except [null]). *)
Fixpoint converts (v : json) : bool :=
  match v with
  | JObj fields =>
      match own_property "toString" fields with
      | Some _ => false
      | None => true
      end
  | JArr items => forallb converts items
  | JNull | JBool _ | JNum _ | JStr _ => true
  end.

(** What [parseFloat] reads in the text of [v], when the conversion
    completes.  A number prints to a literal that reads back as itself.
    [null], booleans and objects print as [null], [true], [false] and
    [[object Object]], none of which starts a number.  An array prints its
    elements separated by commas, [null] elements as empty, so the
    numeric prefix is decided by the first element. *)
Fixpoint parse_text (v : json) : number :=
  match v with
  | JNum n => n
  | JStr s => Parse.parseFloat_string s
  | JArr items =>
      match items with
      | first :: _ => parse_text first
      | [] => NaN
      end
  | JNull | JBool _ | JObj _ => NaN
  end.

(** [parseFloat(v)]: the argument is first converted to a string, which
    may throw. *)
Definition parseFloat (v : json) : completion number :=
  if converts v then Normal (parse_text v)
  else Throw "Cannot convert object to primitive value".

(* ================================================================== *)
(** ** The [POST /predict] handler *)

Inductive response : Type :=
| Ok200 (body : Prediction)                   (* [res.json(prediction)] *)
| Err400 (error : string)                     (* [res.status(400).json] *)
| Err500 (error : string) (details : string). (* the [catch] branch *)

Definition ShapeError : response :=
  Err400 "Invalid input: Expected 9 features".

Definition NotNumericError : response :=
  Err400 "All features must be numeric values".

(** Truthiness of a request value, for [!features]. *)
Definition truthy (v : json) : bool :=
  match v with
  | JNull => false
  | JBool b => b
  | JNum n => negb (isNaN n || strict_eq n 0)
  | JStr s => negb (String.eqb s "")
  | JArr _ | JObj _ => true
  end.

(** The length of a string in UTF-16 code units, counted on its UTF-8
    bytes: a continuation byte counts for nothing, the first byte of a
    four-byte character for two, every other first byte for one. *)
Fixpoint utf16_length (s : string) : nat :=
  match s with
  | EmptyString => 0
  | String c t =>
      let n := nat_of_ascii c in
      ((if n <? 128 then 1 else if n <? 192 then 0
        else if n <? 240 then 1 else 2) + utf16_length t)%nat
  end.

(** [v.length]: arrays and strings have one, an object only as an own
    property, numbers and [true] none. *)
Definition length_property (v : json) : option json :=
  match v with
  | JArr items => Some (JNum (inject_Z (Z.of_nat (List.length items))))
  | JStr s => Some (JNum (inject_Z (Z.of_nat (utf16_length s))))
  | JObj fields => own_property "length" fields
  | JNull | JBool _ | JNum _ => None
  end.

(** [x !== 9] for a property value [x] that may be [undefined]. *)
Definition strict_neq_9 (x : option json) : bool :=
  match x with
  | Some (JNum n) => negb (strict_eq n 9)
  | _ => true
  end.

(** The handler body.  [features] is the field of that name in the
    request body, [None] when the body has none.  Calling [map] on a value
    that is not an array throws a [TypeError], and so does [parseFloat] on
    an element that cannot be converted; the [catch] branch reports
    either with its message. *)
Definition predict (features : option json) : Rand response :=
  match features with
  | None => ret ShapeError
  | Some f =>
      if negb (truthy f) || strict_neq_9 (length_property f) then
        ret ShapeError
      else
        match f with
        | JArr items =>
            match map_completion parseFloat items with
            | Throw message => ret (Err500 "Prediction failed" message)
            | Normal numericFeatures =>
                if existsb isNaN numericFeatures then ret NotNumericError
                else
                  prediction <- mockPredict numericFeatures ;;
                  ret (Ok200 prediction)
            end
        | _ => ret (Err500 "Prediction failed"
                           "features.map is not a function")
        end
  end.

(* ================================================================== *)
(** ** The scoring rules as the specification words them *)

Module Spec.

Inductive ClassLabel : Type := CConfirmed | CCandidate | CFalsePositive.

Definition ClassLabel_eqb (a b : ClassLabel) : bool :=
  match a, b with
  | CConfirmed, CConfirmed | CCandidate, CCandidate
  | CFalsePositive, CFalsePositive => true
  | _, _ => false
  end.

Definition enumeration : list ClassLabel :=
  [CConfirmed; CCandidate; CFalsePositive].

Definition label_string (c : ClassLabel) : string :=
  match c with
  | CConfirmed => "Confirmed"
  | CCandidate => "Candidate"
  | CFalsePositive => "False Positive"
  end.

Definition base (c : ClassLabel) : Q :=
  match c with
  | CConfirmed => 0.33
  | CCandidate => 0.33
  | CFalsePositive => 0.34
  end.

(** An adjustment rule: a guard on the feature vector, the one class it
    favours and the bonus it adds. *)
Record rule : Type :=
  { guard : list number -> bool; target : ClassLabel; bonus : Q }.

Definition koi_period (v : list number) : number := nth 0 v NaN.
Definition koi_prad (v : list number) : number := nth 1 v NaN.
Definition koi_teq (v : list number) : number := nth 4 v NaN.

Definition rules : list rule :=
  [ {| guard := fun v => lt 0.5 (koi_prad v) && lt (koi_prad v) 4
                         && (lt 200 (koi_teq v) && lt (koi_teq v) 400);
       target := CConfirmed; bonus := 0.20 |};
    {| guard := fun v => gt (koi_prad v) 10;
       target := CFalsePositive; bonus := 0.30 |};
    {| guard := fun v => lt (koi_period v) 1;
       target := CFalsePositive; bonus := 0.20 |} ].

(** The bonuses of the rules that fire for class [c], added up. *)
Definition bonuses (v : list number) (c : ClassLabel) : Q :=
  fold_right Qplus 0
    (map bonus
       (filter (fun r => guard r v && ClassLabel_eqb (target r) c) rules)).

Definition weight (v : list number) (c : ClassLabel) : Q :=
  base c + bonuses v c.

Definition total (v : list number) : Q :=
  weight v CConfirmed + weight v CCandidate + weight v CFalsePositive.

Definition probability (v : list number) (c : ClassLabel) : Q :=
  weight v c / total v.

End Spec.

(** A validated feature vector: nine numbers, none of them [NaN]. *)
Definition valid (features : list number) : Prop :=
  List.length features = 9%nat /\ Forall (fun x => isNaN x = false) features.

(** Numeric equality of two model numbers: the same special value, or
    finite values equal as rationals. *)
Definition same_number (x y : number) : Prop :=
  match x, y with
  | NaN, NaN | NegInfinity, NegInfinity | Infinity, Infinity => True
  | Finite a, Finite b => a == b
  | _, _ => False
  end.

(** The probability a response gives to a class, and the position of a
    class in the enumeration order. *)
Definition class_probability (p : Probabilities) (c : Spec.ClassLabel)
  : number :=
  match c with
  | Spec.CConfirmed => Confirmed p
  | Spec.CCandidate => Candidate p
  | Spec.CFalsePositive => False_Positive p
  end.

Definition class_rank (c : Spec.ClassLabel) : nat :=
  match c with
  | Spec.CConfirmed => 0
  | Spec.CCandidate => 1
  | Spec.CFalsePositive => 2
  end.

(** HTTP status of a response. *)
Definition status (r : response) : Z :=
  match r with
  | Ok200 _ => 200
  | Err400 _ => 400
  | Err500 _ _ => 500
  end.


(** A string of white space only (the empty string too). *)
Definition blank (s : string) : bool :=
  String.eqb (Parse.trim_start s) "".

(** Characters that can start a numeric literal after the white space. *)
Definition starts_literal (c : ascii) : bool :=
  Parse.is_digit c || Ascii.eqb c "+" || Ascii.eqb c "-"
  || Ascii.eqb c "." || Ascii.eqb c "I".

(** A token whose first character after the white space cannot start a
    number, such as [abc]. *)
Definition non_numeric_token (s : string) : bool :=
  match Parse.trim_start s with
  | EmptyString => true
  | String c _ => negb (starts_literal c)
  end.

(** Position of a name in a list of names (the length when absent), and
    with it the place of a contribution in the fixed feature order. *)
Fixpoint position (name : string) (names : list string) : nat :=
  match names with
  | [] => 0
  | n :: t => if String.eqb n name then 0 else S (position name t)
  end.

Definition feature_index (e : ShapValue) : nat :=
  match feature e with
  | Some name => position name featureNames
  | None => List.length featureNames
  end.

(** The order the ranking promises between an earlier entry [a] and a
    later entry [b]: a strictly larger magnitude, or the same magnitude
    and an earlier feature. *)
Definition ranks_before (a b : ShapValue) : Prop :=
  lt (Math_abs (importance b)) (Math_abs (importance a)) = true
  \/ (strict_eq (Math_abs (importance a)) (Math_abs (importance b)) = true
      /\ (feature_index a < feature_index b)%nat).

(** The contributions [features.map] builds, before sorting. *)
Definition shapValues (features : list number) (s : entropy)
  : list ShapValue :=
  fst (Array_map shap_of features s).

(** Sample inputs. *)
Definition sample_features : list number :=
  [Finite 10; Finite 2; Finite 0.1; Finite 85; Finite 300; Finite 4.5;
   Finite 1; Finite 1; Finite 5500].

Definition sample_request : list json := map JNum sample_features.



Definition short_request : list json := map JNum (tl sample_features).

(** A request whose first element has an own [toString] property. *)
Definition toString_request : list json :=
  JObj [("toString", JNum (Finite 1))] :: map JNum (tl sample_features).

(** A source whose draws are [0, 1/2, 2/3, 3/4, ...]. *)
Definition sample_source : entropy :=
  {| tape := fun n => Z.of_nat n # Pos.of_nat (S n); pos := 0 |}.

(** A source that always draws one half. *)
Definition half_source : entropy := {| tape := fun _ => 1 # 2; pos := 0 |}.

(** A source that always draws zero, the least value [Math.random] can
    return. *)
Definition zero_source : entropy := {| tape := fun _ => 0; pos := 0 |}.

(** A contribution whose importance is a finite number. *)
Definition finite_importance (e : ShapValue) : Prop :=
  exists q : Q, importance e = Finite q.

(** Earlier in the fixed feature order. *)
Definition feature_before (a b : ShapValue) : Prop :=
  (feature_index a < feature_index b)%nat.

(* ================================================================== *)
(** ** The scoring arithmetic on doubles *)

Module Binary64.
Import Floats.PrimFloat.
#[local] Set Warnings "-inexact-float".
Local Open Scope float_scope.

(** [undefined] compares as [NaN]. *)
Definition destructure (features : list float) (i : nat) : float :=
  nth i features nan.

Definition heuristics (features : list float) : float * float * float :=
  let koi_period := destructure features 0 in
  let koi_prad := destructure features 1 in
  let koi_teq := destructure features 4 in
  let confirmedProb := 0.33 in
  let candidateProb := 0.33 in
  let falsePositiveProb := 0.34 in
  let confirmedProb :=
    if (0.5 <? koi_prad) && (koi_prad <? 4)
       && (200 <? koi_teq) && (koi_teq <? 400)
    then confirmedProb + 0.2 else confirmedProb in
  let falsePositiveProb :=
    if 10 <? koi_prad then falsePositiveProb + 0.3
    else falsePositiveProb in
  let falsePositiveProb :=
    if koi_period <? 1 then falsePositiveProb + 0.2
    else falsePositiveProb in
  (confirmedProb, candidateProb, falsePositiveProb).

Definition normalize (w : float * float * float) : float * float * float :=
  let '(confirmedProb, candidateProb, falsePositiveProb) := w in
  let total := confirmedProb + candidateProb + falsePositiveProb in
  (confirmedProb / total, candidateProb / total, falsePositiveProb / total).

(** The two zeros are not told apart. *)
Definition max2 (x y : float) : float :=
  if is_nan x || is_nan y then nan else if x <? y then y else x.

Definition Math_max (xs : list float) : float :=
  fold_left max2 xs neg_infinity.

Fixpoint indexOf_from (i : Z) (xs : list float) (x : float) : Z :=
  match xs with
  | [] => (-1)%Z
  | y :: t => if y =? x then i else indexOf_from (i + 1)%Z t x
  end.

Definition predicted_class (features : list float) : option string :=
  let '(c, d, f) := normalize (heuristics features) in
  let i := indexOf_from 0%Z [c; d; f] (Math_max [c; d; f]) in
  if (i <? 0)%Z then None
  else nth_error ["Confirmed"; "Candidate"; "False Positive"] (Z.to_nat i).

(** The check a test would run on a response: each probability in
    [0, 1] and the sum within 1e-9 of 1, all evaluated in doubles. *)
Definition is_distribution (p : float * float * float) : bool :=
  let '(c, d, f) := p in
  (0 <=? c) && (c <=? 1) && (0 <=? d) && (d <=? 1)
  && (0 <=? f) && (f <=? 1)
  && (abs (c + d + f - 1) <=? 1e-9).

(** The bars of the confidence chart: the probabilities the back end
    sent, each times 100. *)
Definition chartData (features : list float) : list float :=
  let '(c, d, f) := normalize (heuristics features) in
  [c * 100; d * 100; f * 100].

(** The number shown as "Confidence", before [toFixed(1)]. *)
Definition confidence (features : list float) : float :=
  let '(c, d, f) := normalize (heuristics features) in
  Math_max [c; d; f] * 100.

(** Each bar inside the axis range from 0 to 100, and the three adding
    up to 100 within 1e-9. *)
Definition fills_axis (bars : list float) : bool :=
  match bars with
  | [a; b; c] =>
      (0 <=? a) && (a <=? 100) && (0 <=? b) && (b <=? 100)
      && (0 <=? c) && (c <=? 100)
      && (abs (a + b + c - 100) <=? 1e-9)
  | _ => false
  end.

(** Between 34 and 56, within 1e-9. *)
Definition near_34_to_56 (x : float) : bool :=
  (34 - 1e-9 <=? x) && (x <=? 56 + 1e-9).

(** The bar of a class, by its label. *)
Definition bar_of (label : option string) (bars : list float)
  : option float :=
  match label, bars with
  | Some "Confirmed", [a; _; _] => Some a
  | Some "Candidate", [_; b; _] => Some b
  | Some "False Positive", [_; _; c] => Some c
  | _, _ => None
  end.

End Binary64.

(* ================================================================== *)
(** ** The dashboard: form state, upload and request *)

Module App.

(** A JavaScript object with string keys, as the list of its own
    properties in insertion order.  (Keys that look like array indices,
    which JavaScript orders first, do not occur here.) *)
Definition object (V : Type) : Type := list (string * V).

Fixpoint get {V : Type} (key : string) (o : object V) : option V :=
  match o with
  | [] => None
  | (k, v) :: t => if String.eqb k key then Some v else get key t
  end.

(** [{...o, [key]: v}]: an existing key keeps its place, a new one goes
    to the end. *)
Fixpoint set {V : Type} (key : string) (v : V) (o : object V) : object V :=
  match o with
  | [] => [(key, v)]
  | (k, x) :: t =>
      if String.eqb k key then (k, v) :: t else (k, x) :: set key v t
  end.

Definition Object_keys {V : Type} (o : object V) : list string := map fst o.
Definition Object_values {V : Type} (o : object V) : list V := map snd o.

Definition FEATURE_LABELS : object string :=
  [("koi_period", "Orbital Period (days)");
   ("koi_prad", "Planet Radius (Earth radii)");
   ("koi_sma", "Semi-major Axis (AU)");
   ("koi_incl", "Inclination (degrees)");
   ("koi_teq", "Equilibrium Temperature (K)");
   ("koi_slogg", "Stellar Surface Gravity (log g)");
   ("koi_srad", "Stellar Radius (solar radii)");
   ("koi_smass", "Stellar Mass (solar masses)");
   ("koi_steff", "Stellar Effective Temperature (K)")].

Definition FEATURE_DEFAULTS : object number :=
  [("koi_period", Finite 10.0);
   ("koi_prad", Finite 2.0);
   ("koi_sma", Finite 0.1);
   ("koi_incl", Finite 85.0);
   ("koi_teq", Finite 300.0);
   ("koi_slogg", Finite 4.5);
   ("koi_srad", Finite 1.0);
   ("koi_smass", Finite 1.0);
   ("koi_steff", Finite 5500.0)].

(** [x || y] on numbers: [NaN] and zero are falsy. *)
Definition or_else (x y : number) : number :=
  if isNaN x || strict_eq x 0 then y else x.

Inductive tab : Type := manual | upload.

(** The component state, one field per [useState]. *)
Record State : Type :=
  { features : object number;
    prediction : option Prediction;
    loading : bool;
    error : option string;
    activeTab : tab;
    uploadedData : option json }.

Definition initial : State :=
  {| features := FEATURE_DEFAULTS; prediction := None; loading := false;
     error := None; activeTab := manual; uploadedData := None |}.

Definition setFeatures (f : object number) (st : State) : State :=
  {| features := f; prediction := prediction st; loading := loading st;
     error := error st; activeTab := activeTab st;
     uploadedData := uploadedData st |}.

Definition setPrediction (p : option Prediction) (st : State) : State :=
  {| features := features st; prediction := p; loading := loading st;
     error := error st; activeTab := activeTab st;
     uploadedData := uploadedData st |}.

Definition setLoading (b : bool) (st : State) : State :=
  {| features := features st; prediction := prediction st; loading := b;
     error := error st; activeTab := activeTab st;
     uploadedData := uploadedData st |}.

Definition setError (e : option string) (st : State) : State :=
  {| features := features st; prediction := prediction st;
     loading := loading st; error := e; activeTab := activeTab st;
     uploadedData := uploadedData st |}.

Definition setUploadedData (d : option json) (st : State) : State :=
  {| features := features st; prediction := prediction st;
     loading := loading st; error := error st; activeTab := activeTab st;
     uploadedData := d |}.

Definition handleFeatureChange (feature value : string) (st : State)
  : State :=
  setFeatures
    (set feature (or_else (Parse.parseFloat_string value) 0) (features st))
    st.

(** *** File upload *)

(** [s.trim()]: the leading white space goes, and so does the longest
    tail that is white space only. *)
Fixpoint trim_end (s : string) : string :=
  match s with
  | EmptyString => EmptyString
  | String c t =>
      if String.eqb (Parse.trim_start s) "" then EmptyString
      else String c (trim_end t)
  end.

Definition trim (s : string) : string := trim_end (Parse.trim_start s).

(** [s.split(sep)] for a one-character separator. *)
Fixpoint split (sep : ascii) (s : string) : list string :=
  match s with
  | EmptyString => [EmptyString]
  | String c t =>
      if Ascii.eqb c sep then EmptyString :: split sep t
      else match split sep t with
           | piece :: rest => String c piece :: rest
           | [] => [String c EmptyString]
           end
  end.

(** [s.endsWith(suffix)]. *)
Fixpoint endsWith (s suffix : string) : bool :=
  String.eqb s suffix
  || match s with
     | EmptyString => false
     | String _ t => endsWith t suffix
     end.

Definition newline : ascii := ascii_of_nat 10.

Fixpoint forEach_indexed {A B : Type} (f : A -> nat -> B) (index : nat)
    (xs : list A) : list B :=
  match xs with
  | [] => []
  | x :: t => f x index :: forEach_indexed f (S index) t
  end.

(** The CSV branch: the second line holds the values; with fewer than
    nine of them no data is produced.  A cell that parses to [NaN] or to
    zero gives way to the default. *)
Definition csv_data (content : string) : option json :=
  let lines := split newline content in
  match nth_error lines 1 with
  | None => None
  | Some line =>
      let values :=
        map (fun v => Parse.parseFloat_string (trim v)) (split "," line) in
      if (9 <=? List.length values)%nat then
        Some (JObj (forEach_indexed
                      (fun kv index =>
                         (fst kv, JNum (or_else (nth index values NaN)
                                          (snd kv))))
                      0 FEATURE_DEFAULTS))
      else None
  end.

(** [data[key]] for a feature name: only an object can have it. *)
Definition property (data : json) (key : string) : option json :=
  match data with
  | JObj fields => own_property key fields
  | _ => None
  end.

(** One round of the [forEach] of "Validate and set features from
    uploaded data": a value that is there and parses replaces the entry
    of its key.  [parseFloat] may throw on the value. *)
Definition merge (data : json) (acc : object number) (key : string)
  : completion (object number) :=
  match property data key with
  | Some v =>
      match parseFloat v with
      | Throw message => Throw message
      | Normal n => Normal (if negb (isNaN n) then set key n acc else acc)
      end
  | None => Normal acc
  end.

(** [xs.forEach(f)] threading an accumulator, until a round throws. *)
Fixpoint forEach_completion {A B : Type} (f : A -> B -> completion A)
    (xs : list B) (acc : A) : completion A :=
  match xs with
  | [] => Normal acc
  | x :: t =>
      match f acc x with
      | Throw message => Throw message
      | Normal acc' => forEach_completion f t acc'
      end
  end.

(** The new form state: the defaults, overridden key by key. *)
Definition newFeatures (data : json) : completion (object number) :=
  forEach_completion (merge data) (Object_keys FEATURE_DEFAULTS)
    FEATURE_DEFAULTS.

Definition parse_error : string :=
  "Failed to parse file. Please check the format.".

(** What the [try] block has in [data] when it reaches [if (data)]. *)
Inductive parsed : Type :=
| Threw                 (* [JSON.parse] raised *)
| Undefined             (* no branch assigned [data] *)
| Data (d : json).

(** [reader.onload].  [JSON_parse] stands for [JSON.parse], [None] when
    it throws.  Whatever throws inside the [try] block ends in the
    [catch], which only sets the error. *)
Definition onload (JSON_parse : string -> option json)
    (name content : string) (st : State) : State :=
  let data :=
    if endsWith name ".json" then
      match JSON_parse content with
      | Some d => Data d
      | None => Threw
      end
    else if endsWith name ".csv" then
      match csv_data content with
      | Some d => Data d
      | None => Undefined
      end
    else Undefined in
  match data with
  | Threw => setError (Some parse_error) st
  | Undefined => st
  | Data d =>
      if truthy d then
        match newFeatures d with
        | Throw _ => setError (Some parse_error) st
        | Normal f =>
            setError None (setUploadedData (Some d) (setFeatures f st))
        end
      else st
  end.

(** *** The prediction request *)

(** A number inside [JSON.stringify]: a finite one is written as such,
    [NaN] and the infinities become [null]. *)
Definition stringify_number (n : number) : json :=
  match n with
  | Finite _ => JNum n
  | _ => JNull
  end.

(** [response.ok]. *)
Definition ok (r : response) : bool :=
  ((200 <=? status r) && (status r <=? 299))%Z.

(** [handlePredict] against a reachable back end: the request body is
    [{features: Object.values(features)}] as JSON, the answer is what
    the handler gives.  (A served prediction holds finite numbers only,
    so it crosses JSON unchanged.) *)
Definition connection_error : string :=
  "Failed to connect to prediction service. Make sure the backend is running.".

Definition handlePredict (st : State) : Rand State :=
  let st := setError None (setLoading true st) in
  let featureArray := Object_values (features st) in
  let body := JArr (map stringify_number featureArray) in
  response <- predict (Some body) ;;
  let st :=
    if negb (ok response) then setError (Some connection_error) st
    else
      match response with
      | Ok200 result => setPrediction (Some result) st
      | _ => st   (* not reached: only a 200 answer is [ok] *)
      end in
  ret (setLoading false st).

(** *** Display *)

Definition getClassColor (className : option string) : string :=
  match className with
  | Some "Confirmed" => "text-green-400"
  | Some "Candidate" => "text-yellow-400"
  | Some "False Positive" => "text-red-400"
  | _ => "text-gray-400"
  end.

Definition getClassBgColor (className : option string) : string :=
  match className with
  | Some "Confirmed" => "bg-green-500/10 border-green-500/20"
  | Some "Candidate" => "bg-yellow-500/10 border-yellow-500/20"
  | Some "False Positive" => "bg-red-500/10 border-red-500/20"
  | _ => "bg-gray-500/10 border-gray-500/20"
  end.

End App.

(* ================================================================== *)
(** ** Vocabulary for the further properties *)

(** The three guards of [heuristics], named. *)
Definition in_window (features : list number) : bool :=
  let koi_prad := destructure features 1 in
  let koi_teq := destructure features 4 in
  gt koi_prad 0.5 && lt koi_prad 4 && gt koi_teq 200 && lt koi_teq 400.

Definition large_radius (features : list number) : bool :=
  gt (destructure features 1) 10.

Definition short_period (features : list number) : bool :=
  lt (destructure features 0) 1.

(** Text after which a run of digits is a complete literal: nothing, or a
    character that continues neither the digits, nor a fraction, nor an
    exponent. *)
Definition ends_number (rest : string) : bool :=
  match rest with
  | EmptyString => true
  | String c _ =>
      negb (Parse.is_digit c || Ascii.eqb c "." || Ascii.eqb c "e"
            || Ascii.eqb c "E")
  end.

(** The decimal numeral of a natural number. *)
Definition numeral (n : nat) : string :=
  DecimalString.NilEmpty.string_of_uint (Nat.to_uint n).

(** The request values the handler answers with a server error: a value
    that is not an array yet has the length 9. *)
Definition array_like_nine (f : json) : Prop :=
  (exists str, f = JStr str /\ utf16_length str = 9%nat)
  \/ (exists fields n, f = JObj fields
        /\ own_property "length" fields = Some (JNum (Finite n))
        /\ n == 9).

(** The form state the dashboard keeps: the nine feature names in their
    fixed order, none bound to [NaN]. *)
Definition well_formed (f : App.object number) : Prop :=
  App.Object_keys f = featureNames
  /\ Forall (fun v => isNaN v = false) (App.Object_values f).

(** What the user can do to the form: edit one field, or load a file. *)
Inductive event : Type :=
| Change (feature value : string)
| Upload (name content : string).

(** The form only offers the nine feature fields for editing. *)
Definition from_form (e : event) : Prop :=
  match e with
  | Change feature _ => In feature featureNames
  | Upload _ _ => True
  end.

Definition step (JSON_parse : string -> option json) (st : App.State)
    (e : event) : App.State :=
  match e with
  | Change feature value => App.handleFeatureChange feature value st
  | Upload name content => App.onload JSON_parse name content st
  end.

Definition run (JSON_parse : string -> option json) (events : list event)
  : App.State :=
  fold_left (step JSON_parse) events App.initial.

Definition finite_number (n : number) : Prop := exists q : Q, n = Finite q.

(** A prediction that JSON carries without loss: a class is present and
    every number is finite. *)
Definition transportable (p : Prediction) : Prop :=
  predicted_class p <> None
  /\ finite_number (Confirmed (probabilities p))
  /\ finite_number (Candidate (probabilities p))
  /\ finite_number (False_Positive (probabilities p))
  /\ Forall (fun e => feature e <> None
                      /\ finite_number (importance e)
                      /\ finite_number (value e))
       (top_features p).

(** A form state with an infinite radius, as an upload can produce. *)
Definition infinite_radius_state : App.State :=
  App.setFeatures (App.set "koi_prad" Infinity App.FEATURE_DEFAULTS)
    App.initial.

(** A CSV file: a header line and a line of nine cells, the radius zero
    and the temperature not a number. *)
Definition sample_csv : string :=
  String.concat (String App.newline "")
    ["period,prad,sma,incl,teq,slogg,srad,smass,steff";
     "3.5, 0 ,0.05,89,x,4.4,1,1,5700"].

(** An uploaded object: a radius that parses and a temperature that
    does not. *)
Definition sample_upload : json :=
  JObj [("koi_prad", JStr "15"); ("koi_teq", JStr "hot")].

(** The three rules split every input into eight cases; in each the
    weights are closed terms. *)
Ltac rule_cases :=
  unfold heuristics;
  repeat match goal with
         | |- context [if ?c then add _ _ else _] => destruct c eqn:?
         end.

(** Reading one field of [mockPredict]'s result: name the normalised
    weights and the mapped array, then both sides are the same term. *)
Ltac project_mockPredict :=
  unfold mockPredict;
  match goal with
  | |- context [normalize (heuristics ?fs)] =>
      destruct (normalize (heuristics fs)) as [[? ?] ?]
  end;
  unfold bind;
  match goal with
  | |- context [Array_map shap_of ?fs ?s] =>
      destruct (Array_map shap_of fs s)
  end;
  reflexivity.

(* ================================================================== *)
(** ** Comparisons *)

Lemma Qltb_lt (a b : Q) : Qltb a b = true <-> a < b.
Proof.
  unfold Qltb. rewrite negb_true_iff.
  split; intro H.
  - apply Qnot_le_lt. intro L. apply Qle_bool_iff in L. congruence.
  - destruct (Qle_bool b a) eqn:E; [|reflexivity].
    apply Qle_bool_iff in E. exfalso. exact (Qlt_not_le _ _ H E).
Qed.

Lemma Qltb_ge (a b : Q) : Qltb a b = false <-> b <= a.
Proof.
  unfold Qltb. rewrite negb_false_iff. apply Qle_bool_iff.
Qed.

(* ================================================================== *)
(** ** The fields of [mockPredict]'s result *)

Lemma mockPredict_probabilities (features : list number) (s : entropy) :
  probabilities (fst (mockPredict features s)) =
  let '(c, d, f) := normalize (heuristics features) in
  {| Confirmed := c; Candidate := d; False_Positive := f |}.
Proof. project_mockPredict. Qed.

Lemma mockPredict_predicted_class (features : list number) (s : entropy) :
  predicted_class (fst (mockPredict features s)) =
  let '(c, d, f) := normalize (heuristics features) in
  item labels (indexOf [c; d; f] (Math_max [c; d; f])).
Proof. project_mockPredict. Qed.

Lemma mockPredict_top_features (features : list number) (s : entropy) :
  top_features (fst (mockPredict features s)) =
  rank_features 3 (shapValues features s).
Proof. unfold shapValues. project_mockPredict. Qed.

Lemma mockPredict_state (features : list number) (s : entropy) :
  snd (mockPredict features s) = snd (Array_map shap_of features s).
Proof. project_mockPredict. Qed.

(** C1.  The weights before normalisation are the base values 0.33, 0.33
    and 0.34 plus the bonuses of the rules that fire (0.20 to Confirmed in
    the radius and temperature window, 0.30 to False Positive for a radius
    above 10, 0.20 to False Positive for a period below 1, in any
    combination), and every returned probability is its weight over the
    sum of the three.  This holds for every feature list, the validated
    ones in particular. *)
Theorem scorer_weights_as_specified :
  forall (features : list number) (s : entropy),
  let p := probabilities (fst (mockPredict features s)) in
  (exists wc wd wf : Q,
      heuristics features = (Finite wc, Finite wd, Finite wf)
      /\ wc == Spec.weight features Spec.CConfirmed
      /\ wd == Spec.weight features Spec.CCandidate
      /\ wf == Spec.weight features Spec.CFalsePositive)
  /\ (forall c, same_number (class_probability p c)
                  (Finite (Spec.probability features c))).
Proof.
  intros features s p. subst p. rewrite mockPredict_probabilities.
  unfold Spec.probability, Spec.total, Spec.weight, Spec.bonuses, Spec.rules.
  unfold Spec.koi_prad, Spec.koi_teq, Spec.koi_period.
  cbn [filter map Spec.guard Spec.target Spec.bonus].
  unfold heuristics, destructure, gt.
  destruct (lt 0.5 (nth 1 features NaN)), (lt (nth 1 features NaN) 4),
    (lt 200 (nth 4 features NaN)), (lt (nth 4 features NaN) 400),
    (lt 10 (nth 1 features NaN)), (lt (nth 0 features NaN) 1);
    (split; [ eexists _, _, _; split; [reflexivity|]; vm_compute; auto
            | intros []; vm_compute; reflexivity ]).
Qed.

(* ================================================================== *)
(** ** [Math.max] and [indexOf] on finite numbers *)

Lemma fold_max2_finite (qs : list Q) : forall a : Q,
  exists m : Q,
    fold_left max2 (map Finite qs) (Finite a) = Finite m
    /\ (m = a \/ In m qs)
    /\ a <= m
    /\ Forall (fun q => q <= m) qs.
Proof.
  induction qs as [|q qs IH]; intro a; simpl.
  - exists a. repeat split; auto. apply Qle_refl.
  - destruct (Qltb a q) eqn:E.
    + destruct (IH q) as (m & Hm & Hin & Hle & Hall).
      exists m. rewrite Hm. apply Qltb_lt in E.
      repeat split; auto.
      * right. destruct Hin; auto.
      * apply Qle_trans with q; auto. apply Qlt_le_weak; exact E.
    + destruct (IH a) as (m & Hm & Hin & Hle & Hall).
      exists m. rewrite Hm. apply Qltb_ge in E.
      repeat split; auto.
      * destruct Hin; auto.
      * constructor; auto. apply Qle_trans with a; auto.
Qed.

Lemma Math_max_finite (q : Q) (qs : list Q) :
  exists m : Q,
    Math_max (map Finite (q :: qs)) = Finite m
    /\ In m (q :: qs)
    /\ Forall (fun x => x <= m) (q :: qs).
Proof.
  unfold Math_max. simpl.
  destruct (fold_max2_finite qs q) as (m & Hm & Hin & Hle & Hall).
  exists m. repeat split; auto.
  destruct Hin; [left; auto | right; auto].
Qed.

Lemma indexOf_from_first (m : Q) (qs : list Q) : forall i : Z,
  In m qs ->
  exists k : nat,
    indexOf_from i (map Finite qs) (Finite m) = (i + Z.of_nat k)%Z
    /\ (exists q, nth_error qs k = Some q /\ q == m)
    /\ (forall j q, (j < k)%nat -> nth_error qs j = Some q -> ~ q == m).
Proof.
  induction qs as [|q qs IH]; intros i Hin; [contradiction|].
  simpl. destruct (Qeq_bool q m) eqn:E.
  - exists 0%nat. split; [lia|]. split.
    + exists q. split; [reflexivity|]. apply Qeq_bool_iff; exact E.
    + intros j x Hj. lia.
  - assert (Hin' : In m qs).
    { destruct Hin as [->|]; auto.
      rewrite (proj2 (Qeq_bool_iff m m) (Qeq_refl m)) in E. discriminate. }
    destruct (IH (i + 1)%Z Hin') as (k & Hk & Hq & Hbefore).
    exists (S k). split; [rewrite Hk; lia|]. split; [exact Hq|].
    intros [|j] x Hj Hx; simpl in Hx.
    + injection Hx as <-. intro Heq.
      apply Qeq_bool_iff in Heq. congruence.
    + apply (Hbefore j x); [lia | exact Hx].
Qed.

(** [xs.indexOf(Math.max(...xs))] is the first position of a largest
    element. *)
Lemma first_maximum (q0 : Q) (qs : list Q) :
  let xs := q0 :: qs in
  exists (k : nat) (m : Q),
    indexOf (map Finite xs) (Math_max (map Finite xs)) = Z.of_nat k
    /\ nth_error xs k = Some m
    /\ (forall j q, nth_error xs j = Some q -> q <= m)
    /\ (forall j q, (j < k)%nat -> nth_error xs j = Some q -> q < m).
Proof.
  intro xs. subst xs.
  destruct (Math_max_finite q0 qs) as (m & Hm & Hin & Hall).
  rewrite Hm. unfold indexOf.
  destruct (indexOf_from_first m (q0 :: qs) 0%Z Hin)
    as (k & Hk & (q & Hq & Hqm) & Hbefore).
  exists k, q. split; [rewrite Hk; lia|]. split; [exact Hq|].
  rewrite Forall_forall in Hall. split.
  - intros j x Hx. rewrite Hqm. apply Hall.
    apply nth_error_In with j; exact Hx.
  - intros j x Hj Hx. rewrite Hqm.
    assert (L : x <= m) by (apply Hall, nth_error_In with j; exact Hx).
    apply Qle_lteq in L. destruct L as [L|Heq]; [exact L|].
    exfalso. exact (Hbefore j x Hj Hx Heq).
Qed.

(** Whatever the input, normalisation yields three finite values. *)
Lemma normalize_finite (features : list number) :
  exists c d f : Q,
    normalize (heuristics features) = (Finite c, Finite d, Finite f)
    /\ 0 <= c <= 1 /\ 0 <= d <= 1 /\ 0 <= f <= 1
    /\ c + d + f == 1
    /\ d < f.
Proof.
  rule_cases; eexists _, _, _; (split; [vm_compute; reflexivity|]);
    vm_compute; intuition discriminate.
Qed.

(** The selection step on three finite probabilities: the label chosen is
    that of the first class, in enumeration order, whose probability is
    the largest. *)
Lemma select_first_maximum (c d f : Q) :
  let p := {| Confirmed := c; Candidate := d; False_Positive := f |} in
  exists (k : Spec.ClassLabel) (pk : Q),
    item labels (indexOf [Finite c; Finite d; Finite f]
                   (Math_max [Finite c; Finite d; Finite f]))
    = Some (Spec.label_string k)
    /\ class_probability p k = Finite pk
    /\ forall j : Spec.ClassLabel,
         exists pj : Q,
           class_probability p j = Finite pj
           /\ pj <= pk
           /\ ((class_rank j < class_rank k)%nat -> pj < pk).
Proof.
  intro p. subst p.
  destruct (first_maximum c [d; f]) as (k & m & Hidx & Hnth & Hmax & Hfirst).
  cbn [map] in Hidx. rewrite Hidx.
  assert (Hc := Hmax 0%nat c eq_refl).
  assert (Hd := Hmax 1%nat d eq_refl).
  assert (Hf := Hmax 2%nat f eq_refl).
  destruct k as [|[|[|k]]]; cbn in Hnth.
  - exists Spec.CConfirmed, m. injection Hnth as <-.
    repeat split; intros [];
      eexists; (split; [reflexivity|]); (split; [assumption|]);
      cbn; lia.
  - exists Spec.CCandidate, m. injection Hnth as <-.
    repeat split; intros [];
      eexists; (split; [reflexivity|]); (split; [assumption|]);
      cbn; intro; try lia.
    apply (Hfirst 0%nat c); [lia | reflexivity].
  - exists Spec.CFalsePositive, m. injection Hnth as <-.
    repeat split; intros [];
      eexists; (split; [reflexivity|]); (split; [assumption|]);
      cbn; intro; try lia.
    + apply (Hfirst 0%nat c); [lia | reflexivity].
    + apply (Hfirst 1%nat d); [lia | reflexivity].
  - destruct k; discriminate.
Qed.

(** C2.  The predicted class carries the largest of the three returned
    probabilities, and every class before it in the order Confirmed,
    Candidate, False Positive has a strictly smaller one: among tied
    maxima the first is chosen. *)
Theorem predicted_class_is_first_maximum :
  forall (features : list number) (s : entropy),
    let r := fst (mockPredict features s) in
    exists (c : Spec.ClassLabel) (pc : Q),
      predicted_class r = Some (Spec.label_string c)
      /\ class_probability (probabilities r) c = Finite pc
      /\ forall d : Spec.ClassLabel,
           exists pd : Q,
             class_probability (probabilities r) d = Finite pd
             /\ pd <= pc
             /\ ((class_rank d < class_rank c)%nat -> pd < pc).
Proof.
  intros features s r. subst r.
  rewrite mockPredict_predicted_class, mockPredict_probabilities.
  destruct (normalize_finite features) as (c & d & f & E & _).
  rewrite E. apply select_first_maximum.
Qed.

(** C3.  The three returned probabilities are finite, each lies between 0
    and 1, and over exact rationals they add up to exactly 1 (so within
    1e-9 of it). *)
Theorem probabilities_form_distribution :
  forall (features : list number) (s : entropy),
    let p := probabilities (fst (mockPredict features s)) in
    exists c d f : Q,
      Confirmed p = Finite c /\ Candidate p = Finite d
      /\ False_Positive p = Finite f
      /\ 0 <= c <= 1 /\ 0 <= d <= 1 /\ 0 <= f <= 1
      /\ c + d + f == 1
      /\ Qabs (c + d + f - 1) <= 1 # 1000000000
      /\ same_number (add (add (Confirmed p) (Candidate p)) (False_Positive p))
           (Finite 1).
Proof.
  intros features s p. subst p. rewrite mockPredict_probabilities.
  destruct (normalize_finite features)
    as (c & d & f & E & Hc & Hd & Hf & Hsum & _).
  rewrite E. exists c, d, f. cbn [Confirmed Candidate False_Positive].
  repeat split; try tauto.
  rewrite Hsum. vm_compute. discriminate.
Qed.

(** C8.  The predicted class and the probabilities do not depend on the
    random source: two calls on the same features agree on both, whatever
    the draws. *)
Theorem scorer_ignores_random_source :
  forall (features : list number) (s1 s2 : entropy),
    predicted_class (fst (mockPredict features s1))
    = predicted_class (fst (mockPredict features s2))
    /\ probabilities (fst (mockPredict features s1))
       = probabilities (fst (mockPredict features s2)).
Proof.
  intros features s1 s2.
  rewrite !mockPredict_predicted_class, !mockPredict_probabilities.
  split; reflexivity.
Qed.

(** C10.  The predicted class is never Candidate: its probability is
    strictly below that of False Positive, so it is never the largest. *)
Theorem candidate_never_predicted :
  forall (features : list number) (s : entropy),
    let r := fst (mockPredict features s) in
    predicted_class r <> Some "Candidate"
    /\ exists d f : Q,
         Candidate (probabilities r) = Finite d
         /\ False_Positive (probabilities r) = Finite f
         /\ d < f.
Proof.
  intros features s r. subst r.
  rewrite mockPredict_predicted_class, mockPredict_probabilities.
  destruct (normalize_finite features)
    as (c & d & f & E & _ & _ & _ & _ & Hlt).
  rewrite E. split.
  - destruct (select_first_maximum c d f) as (k & pk & Hk & Hpk & Hmax).
    rewrite Hk. intro Heq.
    destruct k; try discriminate.
    destruct (Hmax Spec.CFalsePositive) as (pf & Hpf & Hle & _).
    cbn in Hpk, Hpf. injection Hpk as <-. injection Hpf as <-.
    exact (Qlt_not_le _ _ Hlt Hle).
  - exists d, f. repeat split. exact Hlt.
Qed.

(* ================================================================== *)
(** ** [parseFloat] on strings that hold no number *)

Lemma trim_start_blank (s : string) :
  blank s = true -> Parse.trim_start s = "".
Proof. unfold blank. apply String.eqb_eq. Qed.

Lemma parseFloat_blank (s : string) :
  blank s = true -> Parse.parseFloat_string s = NaN.
Proof.
  intro H. unfold Parse.parseFloat_string.
  rewrite (trim_start_blank s H). reflexivity.
Qed.

Lemma parseFloat_non_numeric (s : string) :
  non_numeric_token s = true -> Parse.parseFloat_string s = NaN.
Proof.
  unfold non_numeric_token, Parse.parseFloat_string.
  destruct (Parse.trim_start s) as [|c t]; [reflexivity|].
  intro H.
  destruct c as [[] [] [] [] [] [] [] []];
    vm_compute in H; try discriminate H; reflexivity.
Qed.

(* ================================================================== *)
(** ** [parseFloat] on request values *)

Lemma parseFloat_normal (e : json) (n : number) :
  parseFloat e = Normal n <-> converts e = true /\ parse_text e = n.
Proof.
  unfold parseFloat. destruct (converts e); split.
  - intro H. injection H as <-. auto.
  - intros [_ <-]. reflexivity.
  - discriminate.
  - intros [H _]. discriminate H.
Qed.

Lemma parseFloat_throw (e : json) :
  (exists message, parseFloat e = Throw message) <-> converts e = false.
Proof.
  unfold parseFloat. destruct (converts e); split.
  - intros [m H]. discriminate H.
  - discriminate.
  - reflexivity.
  - intros _. eexists. reflexivity.
Qed.

(** [features.map(f => parseFloat(f))]: the parsed elements when every
    one converts, a throw otherwise. *)
Lemma map_parseFloat (items : list json) :
  map_completion parseFloat items =
  if forallb converts items then Normal (map parse_text items)
  else Throw "Cannot convert object to primitive value".
Proof.
  induction items as [|e items IH]; [reflexivity|].
  cbn [map_completion forallb map]. rewrite IH. unfold parseFloat.
  destruct (converts e); [|reflexivity].
  destruct (forallb converts items); reflexivity.
Qed.

Lemma all_convert (items : list json) :
  forallb converts items = true
  <-> Forall (fun e => exists n, parseFloat e = Normal n) items.
Proof.
  rewrite forallb_forall, Forall_forall. split; intros H e He.
  - exists (parse_text e). apply parseFloat_normal. auto.
  - destruct (H e He) as [n Hn]. apply parseFloat_normal in Hn. tauto.
Qed.

Lemma some_throws (items : list json) :
  forallb converts items = false
  <-> Exists (fun e => exists message, parseFloat e = Throw message) items.
Proof.
  split.
  - intro H. induction items as [|e items IH]; [discriminate H|].
    cbn [forallb] in H. destruct (converts e) eqn:E.
    + right. apply IH. exact H.
    + left. apply parseFloat_throw. exact E.
  - intro H. apply Exists_exists in H. destruct H as (e & He & Hm).
    apply parseFloat_throw in Hm.
    destruct (forallb converts items) eqn:E; [|reflexivity].
    rewrite forallb_forall in E. rewrite (E e He) in Hm. discriminate Hm.
Qed.

Lemma existsb_isNaN (items : list json) :
  forallb converts items = true ->
  (existsb isNaN (map parse_text items) = true
   <-> Exists (fun e => parseFloat e = Normal NaN) items).
Proof.
  intro Hconv. rewrite forallb_forall in Hconv.
  rewrite existsb_exists, Exists_exists. split.
  - intros (x & Hin & Hx). apply in_map_iff in Hin.
    destruct Hin as (e & <- & Hin). exists e. split; [exact Hin|].
    apply parseFloat_normal. split; [exact (Hconv e Hin)|].
    destruct (parse_text e); try discriminate; reflexivity.
  - intros (e & Hin & He). apply parseFloat_normal in He.
    destruct He as [_ He]. exists NaN. split; [|reflexivity].
    rewrite <- He. apply in_map. exact Hin.
Qed.

(* ================================================================== *)
(** ** The handler, path by path *)

Lemma predict_nine (items : list json) (s : entropy) :
  List.length items = 9%nat ->
  predict (Some (JArr items)) s =
  if forallb converts items then
    if existsb isNaN (map parse_text items) then (NotNumericError, s)
    else let (p, s') := mockPredict (map parse_text items) s in (Ok200 p, s')
  else (Err500 "Prediction failed" "Cannot convert object to primitive value",
        s).
Proof.
  intro H. unfold predict. cbn [truthy length_property negb orb].
  rewrite H. cbn [strict_neq_9].
  replace (strict_eq (inject_Z (Z.of_nat 9)) 9) with true by reflexivity.
  cbn [negb]. rewrite map_parseFloat.
  destruct (forallb converts items); [|reflexivity].
  destruct (existsb isNaN (map parse_text items)); reflexivity.
Qed.

Lemma predict_wrong_count (items : list json) (s : entropy) :
  List.length items <> 9%nat ->
  predict (Some (JArr items)) s = (ShapeError, s).
Proof.
  intro H. unfold predict. cbn [truthy length_property negb orb].
  cbn [strict_neq_9 strict_eq].
  destruct (Qeq_bool (inject_Z (Z.of_nat (List.length items))) 9) eqn:E.
  - apply Qeq_bool_iff in E. unfold Qeq in E. simpl in E. lia.
  - reflexivity.
Qed.

(** One step of [features.map]: a draw is consumed and the entry built
    from it is put in front of the rest. *)
Lemma map_from_cons (x : number) (t : list number) (index : nat) (s : entropy) :
  map_from shap_of index (x :: t) s =
  let (ys, s') :=
    map_from shap_of (S index) t {| tape := tape s; pos := S (pos s) |} in
  ({| feature := nth_error featureNames index;
      importance := mul (sub (Finite (tape s (pos s))) 0.5) 2;
      value := x |} :: ys, s').
Proof. reflexivity. Qed.

Lemma map_from_state (features : list number) : forall index s,
  snd (map_from shap_of index features s)
  = {| tape := tape s; pos := pos s + List.length features |}.
Proof.
  induction features as [|x t IH]; intros index s.
  - destruct s as [tp p]. simpl. f_equal. lia.
  - rewrite map_from_cons.
    specialize (IH (S index) {| tape := tape s; pos := S (pos s) |}).
    destruct (map_from shap_of (S index) t
                {| tape := tape s; pos := S (pos s) |}) as [ys s'].
    simpl in *. rewrite IH. f_equal. lia.
Qed.




(** C5.  An array whose length is not 9, a request without the field, and
    any value whose [length] is not the number 9 get [ShapeError].  Whenever the answer is [ShapeError] or
    [NotNumericError] it has status 400 and the random source is untouched,
    so [mockPredict] did not run; a served request, in contrast, has
    consumed nine draws. *)
Theorem validation_failure_short_circuits :
  (forall (items : list json) (s : entropy),
      List.length items <> 9%nat ->
      predict (Some (JArr items)) s = (ShapeError, s))
  /\ (forall s : entropy, predict None s = (ShapeError, s))
  /\ (forall (f : json) (s : entropy),
        strict_neq_9 (length_property f) = true ->
        predict (Some f) s = (ShapeError, s))
  /\ (forall (raw : option json) (s : entropy),
        fst (predict raw s) = ShapeError
        \/ fst (predict raw s) = NotNumericError ->
        snd (predict raw s) = s
        /\ status (fst (predict raw s)) = 400%Z)
  /\ (forall (raw : option json) (s : entropy),
        status (fst (predict raw s)) = 200%Z ->
        pos (snd (predict raw s)) = (pos s + 9)%nat).
Proof.
  split; [exact predict_wrong_count|].
  split; [reflexivity|].
  split.
  { intros f s H. unfold predict. rewrite H, orb_true_r. reflexivity. }
  assert (Hpaths : forall raw s,
             (snd (predict raw s) = s /\ status (fst (predict raw s)) <> 200%Z)
             \/ (pos (snd (predict raw s)) = (pos s + 9)%nat
                 /\ status (fst (predict raw s)) = 200%Z)).
  { intros raw s.
    destruct raw as [f|]; [|left; split; [reflexivity|discriminate]].
    destruct f as [| b | n | str | items | fields];
      try (unfold predict;
           destruct (negb _ || _); left; split;
           [reflexivity | discriminate | reflexivity | discriminate]).
    destruct (Nat.eq_dec (List.length items) 9) as [Hlen|Hlen].
    - rewrite (predict_nine items s Hlen).
      destruct (forallb converts items);
        [|left; split; [reflexivity|discriminate]].
      destruct (existsb isNaN (map parse_text items));
        [left; split; [reflexivity|discriminate]|].
      right.
      pose proof (mockPredict_state (map parse_text items) s) as Hst.
      destruct (mockPredict (map parse_text items) s) as [p s'].
      simpl in *. rewrite Hst. unfold Array_map. rewrite map_from_state.
      simpl. rewrite length_map, Hlen. split; reflexivity.
    - rewrite (predict_wrong_count items s Hlen).
      left. split; [reflexivity|discriminate]. }
  split.
  - intros raw s Herr.
    destruct (Hpaths raw s) as [[Hs _]|[_ Hok]].
    + split; [exact Hs|]. destruct Herr as [-> | ->]; reflexivity.
    + destruct Herr as [E|E]; rewrite E in Hok; discriminate Hok.
  - intros raw s Hok.
    destruct (Hpaths raw s) as [[_ Hne]|[Hpos _]]; [contradiction|exact Hpos].
Qed.

Lemma validation_failure_short_circuits_witness :
  predict (Some (JArr short_request)) sample_source
  = (ShapeError, sample_source).
Proof.
  apply (proj1 validation_failure_short_circuits).
  vm_compute. discriminate.
Defined.

(* ================================================================== *)
(** ** The contributions before sorting *)

Lemma map_from_length (features : list number) : forall index s,
  List.length (fst (map_from shap_of index features s))
  = List.length features.
Proof.
  induction features as [|x t IH]; intros index s; [reflexivity|].
  rewrite map_from_cons.
  specialize (IH (S index) {| tape := tape s; pos := S (pos s) |}).
  destruct (map_from shap_of (S index) t _) as [ys s'].
  simpl in *. now rewrite IH.
Qed.

(** Entry [j] of the mapped array carries name [index + j], the value of
    element [j] and an importance made from draw [j] of the source. *)
Lemma map_from_nth (features : list number) : forall index s j e,
  nth_error (fst (map_from shap_of index features s)) j = Some e ->
  feature e = nth_error featureNames (index + j)
  /\ nth_error features j = Some (value e)
  /\ importance e = mul (sub (Finite (tape s (pos s + j))) 0.5) 2.
Proof.
  induction features as [|x t IH]; intros index s j e H.
  - destruct j; discriminate H.
  - rewrite map_from_cons in H.
    specialize (IH (S index) {| tape := tape s; pos := S (pos s) |}).
    destruct (map_from shap_of (S index) t _) as [ys s'].
    destruct j as [|j]; simpl in H.
    + injection H as <-. simpl. rewrite !Nat.add_0_r. auto.
    + destruct (IH j e H) as (Hf & Hv & Hi). simpl in Hi.
      rewrite <- !plus_n_Sm. simpl. auto.
Qed.

Lemma shapValues_In (features : list number) (index : nat) (s : entropy)
    (e : ShapValue) :
  In e (fst (map_from shap_of index features s)) ->
  exists j : nat,
    (j < List.length features)%nat
    /\ feature e = nth_error featureNames (index + j)
    /\ nth_error features j = Some (value e)
    /\ importance e = mul (sub (Finite (tape s (pos s + j))) 0.5) 2.
Proof.
  intro Hin. apply In_nth_error in Hin. destruct Hin as [j Hj].
  exists j. split.
  - rewrite <- (map_from_length features index s).
    apply nth_error_Some. congruence.
  - exact (map_from_nth features index s j e Hj).
Qed.

Lemma importance_of_draw (r : Q) :
  mul (sub (Finite r) 0.5) 2 = Finite ((r + - 0.5) * 2).
Proof. reflexivity. Qed.

Lemma shapValues_finite (features : list number) (s : entropy) :
  Forall finite_importance (shapValues features s).
Proof.
  apply Forall_forall. intros e Hin.
  destruct (shapValues_In features 0 s e Hin) as (j & _ & _ & _ & Hi).
  rewrite importance_of_draw in Hi. eexists. exact Hi.
Qed.

Lemma feature_index_nth (k : nat) (e : ShapValue) :
  (k < 9)%nat -> feature e = nth_error featureNames k -> feature_index e = k.
Proof.
  intros Hk He. unfold feature_index. rewrite He.
  do 9 (destruct k as [|k]; [reflexivity|]). lia.
Qed.

Lemma map_from_in_order (features : list number) : forall index s,
  (index + List.length features <= 9)%nat ->
  StronglySorted feature_before (fst (map_from shap_of index features s)).
Proof.
  induction features as [|x t IH]; intros index s Hlen.
  - constructor.
  - rewrite map_from_cons.
    specialize (IH (S index) {| tape := tape s; pos := S (pos s) |}).
    pose proof (shapValues_In t (S index)
                  {| tape := tape s; pos := S (pos s) |}) as Hin.
    destruct (map_from shap_of (S index) t _) as [ys s'].
    simpl in *. constructor.
    + apply IH. lia.
    + apply Forall_forall. intros e He.
      destruct (Hin e He) as (j & Hj & Hf & _).
      unfold feature_before.
      rewrite (feature_index_nth index _) by (simpl; auto; lia).
      rewrite (feature_index_nth (S (index + j)) e) by (auto; lia).
      lia.
Qed.

(* ================================================================== *)
(** ** The stable sort *)

Section SortFacts.
Variable A : Type.
Variable compareFn : A -> A -> number.

Lemma insert_perm (x : A) (l : list A) :
  Permutation (insert compareFn x l) (x :: l).
Proof.
  induction l as [|y t IH]; cbn [insert]; [reflexivity|].
  destruct (gt (compareFn x y) (Finite 0)); [|reflexivity].
  rewrite IH. apply perm_swap.
Qed.

Lemma sort_perm (l : list A) : Permutation (sort compareFn l) l.
Proof.
  induction l as [|x t IH]; cbn [sort fold_right]; [reflexivity|].
  rewrite insert_perm. constructor. exact IH.
Qed.

Lemma sort_Forall (P : A -> Prop) (l : list A) :
  Forall P l -> Forall P (sort compareFn l).
Proof.
  intro H. apply Forall_forall. intros x Hx.
  rewrite Forall_forall in H. apply H.
  apply Permutation_in with (sort compareFn l); [apply sort_perm | exact Hx].
Qed.

Lemma firstn_In (l : list A) : forall k x, In x (firstn k l) -> In x l.
Proof.
  induction l as [|y t IH]; intros [|k] x H; simpl in *; try contradiction.
  destruct H as [->|H]; [left; reflexivity | right; exact (IH k x H)].
Qed.

Lemma firstn_StronglySorted (R : A -> A -> Prop) (l : list A) :
  StronglySorted R l -> forall k, StronglySorted R (firstn k l).
Proof.
  induction 1 as [|x l Hs IH Hall]; intro k.
  - rewrite firstn_nil. constructor.
  - destruct k as [|k]; simpl; constructor; [apply IH|].
    apply Forall_forall. intros y Hy. rewrite Forall_forall in Hall.
    apply Hall. exact (firstn_In l k y Hy).
Qed.
End SortFacts.

(* ================================================================== *)
(** ** Ranking by magnitude *)

Lemma ranks_before_finite (a b : ShapValue) (qa qb : Q) :
  importance a = Finite qa -> importance b = Finite qb ->
  (ranks_before a b
   <-> Qabs qb < Qabs qa
       \/ (Qabs qa == Qabs qb /\ feature_before a b)).
Proof.
  intros Ha Hb. unfold ranks_before. rewrite Ha, Hb. cbn [Math_abs lt strict_eq].
  rewrite Qltb_lt, Qeq_bool_iff. reflexivity.
Qed.

Lemma moves_behind_finite (a b : ShapValue) (qa qb : Q) :
  importance a = Finite qa -> importance b = Finite qb ->
  (gt (by_abs_importance a b) (Finite 0) = true <-> Qabs qa < Qabs qb).
Proof.
  intros Ha Hb. unfold by_abs_importance. rewrite Ha, Hb.
  cbn [Math_abs sub neg add gt lt]. rewrite Qltb_lt.
  split; intro H; lra.
Qed.

Lemma ranks_before_magnitude (a b : ShapValue) (qa qb : Q) :
  importance a = Finite qa -> importance b = Finite qb ->
  ranks_before a b -> Qabs qb <= Qabs qa.
Proof.
  intros Ha Hb H. apply (ranks_before_finite a b qa qb Ha Hb) in H.
  destruct H as [H|[H _]]; [apply Qlt_le_weak; exact H|].
  rewrite H. apply Qle_refl.
Qed.

Lemma ranks_before_intro (a b : ShapValue) (qa qb : Q) :
  importance a = Finite qa -> importance b = Finite qb ->
  Qabs qb <= Qabs qa -> feature_before a b -> ranks_before a b.
Proof.
  intros Ha Hb Hle Hidx. apply (ranks_before_finite a b qa qb Ha Hb).
  apply Qle_lteq in Hle. destruct Hle as [Hlt|Heq]; [left; exact Hlt|].
  right. split; [symmetry; exact Heq | exact Hidx].
Qed.

(** Inserting a contribution that precedes, in feature order, everything
    already ranked keeps the ranking. *)
Lemma insert_ranked (x : ShapValue) (l : list ShapValue) :
  finite_importance x -> Forall finite_importance l ->
  Forall (feature_before x) l ->
  StronglySorted ranks_before l ->
  StronglySorted ranks_before (insert by_abs_importance x l).
Proof.
  intros [qx Hx] Hfin Hidx Hsorted.
  induction Hsorted as [|y t Hs IH Hall]; cbn [insert].
  - repeat constructor.
  - inversion Hfin as [|? ? [qy Hy] Hfin_t]; subst.
    inversion Hidx as [|? ? Hxy Hidx_t]; subst.
    destruct (gt (by_abs_importance x y) (Finite 0)) eqn:E.
    + apply (moves_behind_finite x y qx qy Hx Hy) in E.
      constructor; [exact (IH Hfin_t Hidx_t)|].
      apply Forall_forall. intros z Hz.
      apply (Permutation_in _ (insert_perm _ by_abs_importance x t)) in Hz.
      destruct Hz as [<-|Hz].
      * apply (ranks_before_finite y x qy qx Hy Hx). left. exact E.
      * rewrite Forall_forall in Hall. exact (Hall z Hz).
    + assert (Hle : Qabs qy <= Qabs qx).
      { apply Qnot_lt_le. intro L.
        apply (moves_behind_finite x y qx qy Hx Hy) in L. congruence. }
      constructor; [constructor; assumption|].
      constructor; [exact (ranks_before_intro x y qx qy Hx Hy Hle Hxy)|].
      apply Forall_forall. intros z Hz.
      rewrite Forall_forall in Hall, Hfin_t, Hidx_t.
      destruct (Hfin_t z Hz) as [qz Hqz].
      apply (ranks_before_intro x z qx qz Hx Hqz); [|exact (Hidx_t z Hz)].
      apply Qle_trans with (Qabs qy); [|exact Hle].
      exact (ranks_before_magnitude y z qy qz Hy Hqz (Hall z Hz)).
Qed.

(** Sorting contributions listed in feature order ranks them: larger
    magnitudes first, equal magnitudes in feature order. *)
Lemma sort_ranked (l : list ShapValue) :
  Forall finite_importance l ->
  StronglySorted feature_before l ->
  StronglySorted ranks_before (sort by_abs_importance l).
Proof.
  intros Hfin Hord. induction Hord as [|x t Hs IH Hall]; cbn [sort fold_right].
  - constructor.
  - inversion Hfin as [|? ? Hx Hfin_t]; subst.
    apply insert_ranked.
    + exact Hx.
    + apply sort_Forall. exact Hfin_t.
    + apply sort_Forall. exact Hall.
    + exact (IH Hfin_t).
Qed.

Lemma slice_from_zero (k : nat) (l : list ShapValue) : slice 0 k l = firstn k l.
Proof. unfold slice. rewrite Nat.sub_0_r. reflexivity. Qed.

Lemma rank_features_length (k : nat) (l : list ShapValue) :
  List.length (rank_features k l) = Nat.min k (List.length l).
Proof.
  unfold rank_features. rewrite slice_from_zero, length_firstn.
  rewrite (Permutation_length (sort_perm _ by_abs_importance l)).
  reflexivity.
Qed.

Lemma rank_features_In (k : nat) (l : list ShapValue) (e : ShapValue) :
  In e (rank_features k l) -> In e l.
Proof.
  unfold rank_features. rewrite slice_from_zero. intro H.
  apply firstn_In in H.
  exact (Permutation_in _ (sort_perm _ by_abs_importance l) H).
Qed.

(** C6.  For nine features and any source, [top_features] has
    [min 3 9 = 3] entries (and a cut at [k] would give [min k 9]), and of
    any two entries the earlier one has the strictly larger magnitude, or
    the same magnitude and the earlier feature. *)
Theorem top_features_ranked :
  forall (features : list number) (s : entropy),
    List.length features = 9%nat ->
    let top := top_features (fst (mockPredict features s)) in
    List.length top = Nat.min 3 9
    /\ (forall k : nat,
          List.length (rank_features k (shapValues features s)) = Nat.min k 9)
    /\ StronglySorted ranks_before top
    /\ Forall finite_importance top.
Proof.
  intros features s Hlen top. subst top.
  rewrite mockPredict_top_features.
  assert (Hn : List.length (shapValues features s) = 9%nat).
  { unfold shapValues, Array_map. rewrite map_from_length. exact Hlen. }
  split; [rewrite rank_features_length, Hn; reflexivity|].
  split; [intro k; rewrite rank_features_length, Hn; reflexivity|].
  split.
  - unfold rank_features. rewrite slice_from_zero.
    apply firstn_StronglySorted. apply sort_ranked.
    + apply shapValues_finite.
    + unfold shapValues, Array_map. apply map_from_in_order. lia.
  - apply Forall_forall. intros e He. apply rank_features_In in He.
    pose proof (shapValues_finite features s) as Hfin.
    rewrite Forall_forall in Hfin. exact (Hfin e He).
Qed.

Lemma top_features_ranked_witness :
  List.length (top_features (fst (mockPredict sample_features sample_source)))
  = 3%nat.
Proof.
  exact (proj1 (top_features_ranked sample_features sample_source eq_refl)).
Defined.

(** C7, as amended.  With draws in [0, 1), each of the nine importance
    values is finite and lies in the half-open interval from -1 (included)
    to 1 (excluded). *)
Theorem importance_in_half_open_interval :
  forall (features : list number) (s : entropy),
    List.length features = 9%nat ->
    unit_draws s ->
    List.length (shapValues features s) = 9%nat
    /\ Forall (fun e => exists q : Q,
                  importance e = Finite q /\ -1 <= q /\ q < 1)
         (shapValues features s).
Proof.
  intros features s Hlen Hdraws. split.
  - unfold shapValues, Array_map. rewrite map_from_length. exact Hlen.
  - apply Forall_forall. intros e He.
    destruct (shapValues_In features 0 s e He) as (j & _ & _ & _ & Hi).
    rewrite importance_of_draw in Hi.
    destruct (Hdraws (pos s + j)%nat) as [Hlo Hhi].
    eexists. split; [exact Hi|]. split; lra.
Qed.

Lemma half_source_unit : unit_draws half_source.
Proof. intro n. split; vm_compute; [discriminate | reflexivity]. Defined.

Lemma importance_in_half_open_interval_witness :
  Forall (fun e => exists q : Q, importance e = Finite q /\ -1 <= q /\ q < 1)
    (shapValues sample_features half_source).
Proof.
  exact (proj2 (importance_in_half_open_interval sample_features half_source
                  eq_refl half_source_unit)).
Defined.

(** C7 as stated fails: a draw of 0 yields an importance of exactly -1,
    which is not inside the open interval. *)
Lemma importance_reaches_minus_one :
  valid sample_features
  /\ unit_draws zero_source
  /\ (exists (e : ShapValue) (q : Q),
        In e (shapValues sample_features zero_source)
        /\ importance e = Finite q /\ q == -1)
  /\ ~ (forall (features : list number) (s : entropy),
          valid features -> unit_draws s ->
          Forall (fun e => exists q : Q,
                     importance e = Finite q /\ -1 < q /\ q < 1)
            (shapValues features s)).
Proof.
  assert (Hvalid : valid sample_features).
  { split; [reflexivity|]. repeat constructor. }
  assert (Hzero : unit_draws zero_source).
  { intro n. split; vm_compute; [discriminate | reflexivity]. }
  split; [exact Hvalid|]. split; [exact Hzero|]. split.
  - eexists _, _. split; [left; reflexivity|].
    split; [reflexivity|]. reflexivity.
  - intro H. specialize (H sample_features zero_source Hvalid Hzero).
    inversion H as [|e l (q & Hq & Hlo & _) _]; subst.
    cbn in Hq. injection Hq as <-.
    vm_compute in Hlo. discriminate Hlo.
Qed.

(** C9.  Every entry of [top_features] carries the name at some position
    of the fixed feature order together with the input value at that same
    position. *)
Theorem top_features_keep_name_and_value :
  forall (features : list number) (s : entropy),
    List.length features = 9%nat ->
    Forall (fun e => exists (i : nat) (name : string),
                (i < 9)%nat
                /\ nth_error featureNames i = Some name
                /\ feature e = Some name
                /\ nth_error features i = Some (value e))
      (top_features (fst (mockPredict features s))).
Proof.
  intros features s Hlen. rewrite mockPredict_top_features.
  apply Forall_forall. intros e He. apply rank_features_In in He.
  destruct (shapValues_In features 0 s e He) as (j & Hj & Hf & Hv & _).
  simpl in Hf. rewrite Hlen in Hj.
  destruct (nth_error featureNames j) as [name|] eqn:Hname.
  - exists j, name. auto.
  - apply nth_error_None in Hname. simpl in Hname. lia.
Qed.

Lemma top_features_keep_name_and_value_witness :
  Forall (fun e => exists (i : nat) (name : string),
              (i < 9)%nat
              /\ nth_error featureNames i = Some name
              /\ feature e = Some name
              /\ nth_error sample_features i = Some (value e))
    (top_features (fst (mockPredict sample_features sample_source))).
Proof.
  exact (top_features_keep_name_and_value sample_features sample_source
           eq_refl).
Defined.

Example explainer_follows_the_draws :
  map importance (top_features (fst (mockPredict sample_features zero_source)))
  <> map importance
       (top_features (fst (mockPredict sample_features half_source))).
Proof. vm_compute. discriminate. Qed.

(** Ties in magnitude: with every draw equal all nine magnitudes agree and
    the first three features are returned, in their original order. *)
Example ties_keep_feature_order :
  map feature (top_features (fst (mockPredict sample_features half_source)))
  = [Some "koi_period"; Some "koi_prad"; Some "koi_sma"].
Proof. reflexivity. Qed.

(** A served request reports the parsed request elements as values. *)
Lemma served_request (raw : list json) (s : entropy) :
  List.length raw = 9%nat ->
  Forall (fun e => exists n, parseFloat e = Normal n /\ n <> NaN) raw ->
  predict (Some (JArr raw)) s
  = (Ok200 (fst (mockPredict (map parse_text raw) s)),
     snd (mockPredict (map parse_text raw) s)).
Proof.
  intros Hlen Hall. rewrite (predict_nine raw s Hlen).
  assert (Hconv : forallb converts raw = true).
  { apply all_convert. apply Forall_forall. intros e He.
    rewrite Forall_forall in Hall. destruct (Hall e He) as (n & Hn & _).
    exists n. exact Hn. }
  rewrite Hconv.
  destruct (existsb isNaN (map parse_text raw)) eqn:E.
  - apply (existsb_isNaN raw Hconv) in E. apply Exists_exists in E.
    destruct E as (e & Hin & He). rewrite Forall_forall in Hall.
    destruct (Hall e Hin) as (n & Hn & Hne). congruence.
  - destruct (mockPredict (map parse_text raw) s). reflexivity.
Qed.

(* ================================================================== *)
(** ** The rule scenarios *)

(** Radius 2 and temperature 300: the window rule fires and Confirmed
    wins with 0.53 / 1.20. *)
Example window_scenario :
  let r := fst (mockPredict sample_features sample_source) in
  predicted_class r = Some "Confirmed"
  /\ same_number (Confirmed (probabilities r)) (Finite (53 # 120))
  /\ lt (Finite 0.34) (Confirmed (probabilities r)) = true.
Proof. vm_compute. auto. Qed.

(** Radius 15: False Positive is the largest. *)
Example large_radius_scenario :
  let features := [Finite 10; Finite 15; Finite 0.1; Finite 85; Finite 300;
                   Finite 4.5; Finite 1; Finite 1; Finite 5500] in
  let r := fst (mockPredict features sample_source) in
  predicted_class r = Some "False Positive"
  /\ same_number (False_Positive (probabilities r)) (Finite (64 # 130)).
Proof. vm_compute. auto. Qed.

(** Period 0.5 with radius 2 and temperature 300: both the window rule
    and the short-period rule fire, and False Positive (0.54) passes
    Confirmed (0.53). *)
Example short_period_scenario :
  let features := [Finite 0.5; Finite 2; Finite 0.1; Finite 85; Finite 300;
                   Finite 4.5; Finite 1; Finite 1; Finite 5500] in
  let r := fst (mockPredict features sample_source) in
  predicted_class r = Some "False Positive"
  /\ same_number (False_Positive (probabilities r)) (Finite (54 # 140))
  /\ same_number (Confirmed (probabilities r)) (Finite (53 # 140)).
Proof. vm_compute. auto. Qed.

(** The sample request is served, and serving it takes nine draws. *)
Example sample_request_served :
  status (fst (predict (Some (JArr sample_request)) sample_source)) = 200%Z
  /\ pos (snd (predict (Some (JArr sample_request)) sample_source)) = 9%nat.
Proof. split; reflexivity. Qed.

(** The request of the error scenario: eight elements. *)
Example eight_elements_scenario :
  fst (predict (Some (JArr short_request)) sample_source) = ShapeError.
Proof. reflexivity. Qed.

(** [parseFloat] reads the longest numeric prefix. *)
Example parseFloat_prefixes :
  Forall2 same_number
    (map Parse.parseFloat_string
       ["12.5"; "  -3e2x"; ".5"; "5."; "1e"; "12abc"; "-Infinity"])
    [Finite 12.5; Finite (-300); Finite 0.5; Finite 5; Finite 1; Finite 12;
     NegInfinity]
  /\ map Parse.parseFloat_string ["abc"; ""; "   "; "."; "- 1"; "e5"]
     = [NaN; NaN; NaN; NaN; NaN; NaN].
Proof.
  split; [|reflexivity].
  repeat constructor; vm_compute; reflexivity.
Qed.

(* ================================================================== *)
(** ** Doubles agree with the exact model *)

(** X21.  In binary64 arithmetic too, whatever the features, every
    probability is in [0, 1] and the sum is within 1e-9 of 1. *)
Lemma binary64_distribution (features : list Floats.PrimFloat.float) :
  Binary64.is_distribution (Binary64.normalize (Binary64.heuristics features))
  = true.
Proof.
  unfold Binary64.heuristics.
  repeat match goal with
         | |- context [if ?c then PrimFloat.add _ _ else _] => destruct c
         end; vm_compute; reflexivity.
Qed.

(** X22.  In binary64 arithmetic too the predicted class is never
    Candidate: it is Confirmed or False Positive. *)
Lemma binary64_predicted_class (features : list Floats.PrimFloat.float) :
  Binary64.predicted_class features = Some "Confirmed"
  \/ Binary64.predicted_class features = Some "False Positive".
Proof.
  unfold Binary64.predicted_class, Binary64.heuristics.
  repeat match goal with
         | |- context [if ?c then PrimFloat.add _ _ else _] => destruct c
         end; vm_compute; auto.
Qed.

(* ================================================================== *)
(** ** Further properties of the handler *)

Lemma predict_not_array (f : json) (s : entropy) :
  (forall items, f <> JArr items) ->
  predict (Some f) s =
  if negb (truthy f) || strict_neq_9 (length_property f)
  then (ShapeError, s)
  else (Err500 "Prediction failed" "features.map is not a function", s).
Proof.
  intro H. unfold predict.
  destruct (negb (truthy f) || strict_neq_9 (length_property f));
    [reflexivity|].
  destruct f; try reflexivity. exfalso. exact (H items eq_refl).
Qed.

(** X1.  A request is served (status 200) exactly when its [features]
    field is an array of nine elements on each of which [parseFloat]
    completes with a value other than [NaN]. *)
Theorem served_exactly_when_nine_numbers :
  forall (raw : option json) (s : entropy),
    status (fst (predict raw s)) = 200%Z
    <-> exists items : list json,
          raw = Some (JArr items)
          /\ List.length items = 9%nat
          /\ Forall (fun e => exists n, parseFloat e = Normal n /\ n <> NaN)
               items.
Proof.
  intros raw s. split.
  - intro H. destruct raw as [f|]; [|discriminate H].
    destruct f as [| b | n | str | items | fields];
      try (rewrite predict_not_array in H by discriminate;
           destruct (negb _ || _); discriminate H).
    exists items. split; [reflexivity|].
    destruct (Nat.eq_dec (List.length items) 9) as [E|E].
    + split; [exact E|]. rewrite (predict_nine items s E) in H.
      destruct (forallb converts items) eqn:Hconv; [|discriminate H].
      destruct (existsb isNaN (map parse_text items)) eqn:Ex;
        [discriminate H|].
      apply Forall_forall. intros e He.
      rewrite forallb_forall in Hconv.
      exists (parse_text e). split.
      * apply parseFloat_normal. split; [exact (Hconv e He) | reflexivity].
      * intro Hnan.
        assert (Hex : existsb isNaN (map parse_text items) = true).
        { apply existsb_exists. exists NaN. split; [|reflexivity].
          rewrite <- Hnan. apply in_map. exact He. }
        congruence.
    + rewrite (predict_wrong_count items s E) in H. discriminate H.
  - intros (items & -> & Hlen & Hall).
    rewrite (served_request items s Hlen Hall). reflexivity.
Qed.

(** X2.  The [catch] branch answers 500 "Prediction failed", with the
    random source untouched, in exactly two cases: the [features] value
    is not an array but has length 9 (a string of nine UTF-16 units, an
    object with [length: 9]), so that [features.map] is not a function;
    or it is an array of nine elements and [parseFloat] throws on one of
    them (an object with an own [toString] property, also inside an
    array). *)
Theorem server_error_exactly_when_map_throws :
  forall (raw : option json) (s : entropy),
    (status (fst (predict raw s)) = 500%Z
     <-> (exists f, raw = Some f /\ array_like_nine f)
         \/ (exists items,
               raw = Some (JArr items)
               /\ List.length items = 9%nat
               /\ Exists (fun e => exists message,
                             parseFloat e = Throw message) items))
    /\ (status (fst (predict raw s)) = 500%Z ->
        exists details,
          predict raw s = (Err500 "Prediction failed" details, s)).
Proof.
  intros raw s.
  assert (Hshape : status (fst (predict raw s)) = 500%Z ->
                   exists details,
                     predict raw s = (Err500 "Prediction failed" details, s)).
  { intro H. destruct raw as [f|]; [|discriminate H].
    destruct f as [| b | n | str | items | fields];
      try (rewrite predict_not_array in H |- * by discriminate;
           destruct (negb _ || _); [discriminate H | eexists; reflexivity]).
    destruct (Nat.eq_dec (List.length items) 9) as [E|E].
    - rewrite (predict_nine items s E) in H |- *.
      destruct (forallb converts items); [|eexists; reflexivity].
      destruct (existsb isNaN (map parse_text items)); [discriminate H|].
      destruct (mockPredict (map parse_text items) s). discriminate H.
    - rewrite (predict_wrong_count items s E) in H. discriminate H. }
  split; [|exact Hshape]. split.
  - intro H. destruct raw as [f|]; [|discriminate H].
    destruct f as [| b | n | str | items | fields];
      try (rewrite predict_not_array in H by discriminate;
           cbn [length_property strict_neq_9] in H;
           rewrite orb_true_r in H; discriminate H).
    + left. exists (JStr str). split; [reflexivity|].
      left. exists str. split; [reflexivity|].
      rewrite predict_not_array in H by discriminate.
      cbn [length_property] in H. unfold strict_neq_9, strict_eq in H.
      destruct (Qeq_bool (inject_Z (Z.of_nat (utf16_length str))) 9) eqn:E.
      * apply Qeq_bool_iff in E. unfold Qeq in E. simpl in E. lia.
      * rewrite orb_true_r in H. discriminate H.
    + right. exists items. split; [reflexivity|].
      destruct (Nat.eq_dec (List.length items) 9) as [E|E].
      * split; [exact E|]. rewrite (predict_nine items s E) in H.
        destruct (forallb converts items) eqn:Hconv.
        -- destruct (existsb isNaN (map parse_text items));
             [discriminate H|].
           destruct (mockPredict (map parse_text items) s). discriminate H.
        -- apply some_throws. exact Hconv.
      * rewrite (predict_wrong_count items s E) in H. discriminate H.
    + left. exists (JObj fields). split; [reflexivity|].
      right. rewrite predict_not_array in H by discriminate.
      cbn [truthy length_property negb orb] in H.
      destruct (own_property "length" fields) as [[| | [| |n|] | | |]|] eqn:E;
        try discriminate H.
      exists fields, n. split; [reflexivity|]. split; [exact E|].
      unfold strict_neq_9, strict_eq in H.
      destruct (Qeq_bool n 9) eqn:En; [|discriminate H].
      apply Qeq_bool_iff. exact En.
  - intros [(f & -> & [(str & -> & Hlen) | (fields & n & -> & Hprop & Hn)])
           | (items & -> & Hlen & Hex)].
    + rewrite predict_not_array by discriminate.
      cbn [truthy length_property strict_neq_9]. rewrite Hlen.
      destruct str; [discriminate Hlen|]. reflexivity.
    + rewrite predict_not_array by discriminate.
      cbn [truthy length_property negb orb]. rewrite Hprop.
      unfold strict_neq_9, strict_eq.
      rewrite (proj2 (Qeq_bool_iff n 9) Hn). reflexivity.
    + rewrite (predict_nine items s Hlen).
      apply some_throws in Hex. rewrite Hex. reflexivity.
Qed.

Lemma server_error_exactly_when_map_throws_witness :
  exists details,
    predict (Some (JArr toString_request)) sample_source
    = (Err500 "Prediction failed" details, sample_source).
Proof.
  apply (proj2 (server_error_exactly_when_map_throws
                  (Some (JArr toString_request)) sample_source)).
  apply (proj1 (server_error_exactly_when_map_throws
                  (Some (JArr toString_request)) sample_source)).
  right. exists toString_request. split; [reflexivity|].
  split; [reflexivity|]. left. eexists. reflexivity.
Defined.

(* ================================================================== *)
(** ** Further properties of [mockPredict] *)

(** X3.  [mockPredict] takes exactly one draw per feature and leaves the
    tape as it was: the source moves on by the length of the input. *)
Theorem mockPredict_draws_once_per_feature :
  forall (features : list number) (s : entropy),
    snd (mockPredict features s)
    = {| tape := tape s; pos := pos s + List.length features |}.
Proof.
  intros features s. rewrite mockPredict_state.
  unfold Array_map. apply map_from_state.
Qed.

(** The window rule and the large-radius rule never fire together. *)
Lemma window_excludes_large_radius (features : list number) :
  in_window features = true -> large_radius features = false.
Proof.
  unfold in_window, large_radius, gt.
  destruct (destructure features 1) as [| | q |]; cbn [lt]; intro H.
  - discriminate H.
  - reflexivity.
  - apply andb_true_iff in H. destruct H as [H _].
    apply andb_true_iff in H. destruct H as [H _].
    apply andb_true_iff in H. destruct H as [_ H].
    apply Qltb_lt in H. apply Qltb_ge. lra.
  - rewrite andb_false_r in H. discriminate H.
Qed.

Lemma predicted_class_closed_form (features : list number) (s : entropy) :
  predicted_class (fst (mockPredict features s))
  = Some (if in_window features && negb (short_period features)
          then "Confirmed" else "False Positive").
Proof.
  rewrite mockPredict_predicted_class.
  pose proof (window_excludes_large_radius features) as Hex.
  unfold heuristics. fold (in_window features).
  fold (large_radius features). fold (short_period features).
  destruct (in_window features), (large_radius features),
    (short_period features);
    try (specialize (Hex eq_refl); discriminate Hex);
    vm_compute; reflexivity.
Qed.

(** X4.  The decision in closed form: the answer is Confirmed exactly
    when the radius and temperature window holds and the period is not
    below 1, and False Positive otherwise; the six other features never
    matter, and the window excludes the large-radius rule. *)
Theorem decision_rule :
  forall (features : list number) (s : entropy),
    predicted_class (fst (mockPredict features s))
    = Some (if in_window features && negb (short_period features)
            then "Confirmed" else "False Positive")
    /\ (in_window features = true -> large_radius features = false).
Proof.
  intros features s. split.
  - apply predicted_class_closed_form.
  - apply window_excludes_large_radius.
Qed.

(** X5.  The importance signal ignores the feature values: two inputs of
    the same length get, from the same source, top features with the same
    names and the same importances. *)
Lemma map_from_signal (f1 : list number) : forall f2 index s,
  List.length f1 = List.length f2 ->
  Forall2 (fun a b => feature a = feature b /\ importance a = importance b)
    (fst (map_from shap_of index f1 s)) (fst (map_from shap_of index f2 s)).
Proof.
  induction f1 as [|x t IH]; intros [|y u] index s Hlen;
    try discriminate Hlen.
  - constructor.
  - rewrite !map_from_cons.
    specialize (IH u (S index) {| tape := tape s; pos := S (pos s) |}).
    destruct (map_from shap_of (S index) t _) as [ys1 s1].
    destruct (map_from shap_of (S index) u _) as [ys2 s2].
    simpl in *. constructor; [split; reflexivity|].
    apply IH. lia.
Qed.

Lemma insert_signal (x y : ShapValue) (l m : list ShapValue) :
  feature x = feature y /\ importance x = importance y ->
  Forall2 (fun a b => feature a = feature b /\ importance a = importance b)
    l m ->
  Forall2 (fun a b => feature a = feature b /\ importance a = importance b)
    (insert by_abs_importance x l) (insert by_abs_importance y m).
Proof.
  intros Hxy H. induction H as [|a b l m Hab H IH]; cbn [insert].
  - repeat constructor; tauto.
  - assert (E : by_abs_importance x a = by_abs_importance y b).
    { unfold by_abs_importance.
      destruct Hxy as [_ ->]. destruct Hab as [_ ->]. reflexivity. }
    rewrite E. destruct (gt (by_abs_importance y b) (Finite 0)).
    + constructor; assumption.
    + constructor; [exact Hxy|]. constructor; assumption.
Qed.

Lemma sort_signal (l m : list ShapValue) :
  Forall2 (fun a b => feature a = feature b /\ importance a = importance b)
    l m ->
  Forall2 (fun a b => feature a = feature b /\ importance a = importance b)
    (sort by_abs_importance l) (sort by_abs_importance m).
Proof.
  induction 1 as [|a b l m Hab H IH]; cbn [sort fold_right].
  - constructor.
  - apply insert_signal; assumption.
Qed.

Lemma firstn_Forall2 {A B : Type} (R : A -> B -> Prop) (l : list A)
    (m : list B) :
  Forall2 R l m -> forall k, Forall2 R (firstn k l) (firstn k m).
Proof.
  induction 1 as [|a b l m Hab H IH]; intros [|k]; simpl;
    constructor; auto.
Qed.

Theorem importance_ignores_values :
  forall (f1 f2 : list number) (s : entropy),
    List.length f1 = List.length f2 ->
    Forall2 (fun a b => feature a = feature b /\ importance a = importance b)
      (top_features (fst (mockPredict f1 s)))
      (top_features (fst (mockPredict f2 s))).
Proof.
  intros f1 f2 s Hlen. rewrite !mockPredict_top_features.
  unfold rank_features. rewrite !slice_from_zero.
  apply firstn_Forall2. apply sort_signal.
  unfold shapValues, Array_map. apply map_from_signal. exact Hlen.
Qed.

Lemma importance_ignores_values_witness :
  Forall2 (fun a b => feature a = feature b /\ importance a = importance b)
    (top_features (fst (mockPredict sample_features sample_source)))
    (top_features (fst (mockPredict (map neg sample_features) sample_source))).
Proof.
  apply importance_ignores_values. reflexivity.
Defined.

(** X6.  The entries kept are the largest: the sorted contributions are
    the kept ones followed by six others, and every kept entry ranks
    before every one left out. *)
Lemma StronglySorted_app_inv {A : Type} (R : A -> A -> Prop) (l m : list A) :
  StronglySorted R (l ++ m) ->
  forall a b, In a l -> In b m -> R a b.
Proof.
  induction l as [|x l IH]; intros H a b Ha Hb; [contradiction|].
  simpl in H. inversion H as [|? ? Hs Hall]; subst.
  destruct Ha as [<-|Ha].
  - rewrite Forall_forall in Hall. apply Hall. apply in_or_app. auto.
  - exact (IH Hs a b Ha Hb).
Qed.

Theorem top_features_are_the_largest :
  forall (features : list number) (s : entropy),
    List.length features = 9%nat ->
    exists rest : list ShapValue,
      Permutation (top_features (fst (mockPredict features s)) ++ rest)
        (shapValues features s)
      /\ List.length rest = 6%nat
      /\ forall kept out,
           In kept (top_features (fst (mockPredict features s))) ->
           In out rest -> ranks_before kept out.
Proof.
  intros features s Hlen. rewrite mockPredict_top_features.
  unfold rank_features. rewrite slice_from_zero.
  set (sorted := sort by_abs_importance (shapValues features s)).
  exists (skipn 3 sorted).
  assert (Hsorted : StronglySorted ranks_before sorted).
  { apply sort_ranked; [apply shapValues_finite|].
    unfold shapValues, Array_map. apply map_from_in_order. lia. }
  split; [rewrite firstn_skipn; apply sort_perm|]. split.
  - rewrite length_skipn. unfold sorted.
    rewrite (Permutation_length (sort_perm _ by_abs_importance _)).
    unfold shapValues, Array_map. rewrite map_from_length, Hlen. reflexivity.
  - apply StronglySorted_app_inv. rewrite firstn_skipn. exact Hsorted.
Qed.

Lemma top_features_are_the_largest_witness :
  exists rest : list ShapValue,
    Permutation
      (top_features (fst (mockPredict sample_features sample_source)) ++ rest)
      (shapValues sample_features sample_source)
    /\ List.length rest = 6%nat
    /\ forall kept out,
         In kept (top_features (fst (mockPredict sample_features
                                       sample_source))) ->
         In out rest -> ranks_before kept out.
Proof.
  exact (top_features_are_the_largest sample_features sample_source eq_refl).
Defined.

(** X7.  No feature is reported twice: the names in [top_features] are
    pairwise distinct (the dashboard uses them as list keys). *)
Lemma map_from_names (features : list number) : forall index s,
  map feature (fst (map_from shap_of index features s))
  = map (nth_error featureNames) (seq index (List.length features)).
Proof.
  induction features as [|x t IH]; intros index s; [reflexivity|].
  rewrite map_from_cons.
  specialize (IH (S index) {| tape := tape s; pos := S (pos s) |}).
  destruct (map_from shap_of (S index) t _) as [ys s'].
  simpl in *. now rewrite IH.
Qed.

Lemma firstn_NoDup {A : Type} (l : list A) :
  NoDup l -> forall k, NoDup (firstn k l).
Proof.
  induction 1 as [|x l Hx H IH]; intros [|k]; simpl; try constructor.
  - intro Hin. apply Hx. exact (firstn_In _ l k x Hin).
  - apply IH.
Qed.

Theorem top_features_names_distinct :
  forall (features : list number) (s : entropy),
    List.length features = 9%nat ->
    NoDup (map feature (top_features (fst (mockPredict features s)))).
Proof.
  intros features s Hlen. rewrite mockPredict_top_features.
  unfold rank_features. rewrite slice_from_zero, <- firstn_map.
  apply firstn_NoDup.
  apply (Permutation_NoDup
           (l := map feature (shapValues features s))).
  - apply Permutation_map. symmetry. apply sort_perm.
  - unfold shapValues, Array_map. rewrite map_from_names, Hlen.
    cbn. repeat constructor; cbn; intuition discriminate.
Qed.

Lemma top_features_names_distinct_witness :
  NoDup (map feature
           (top_features (fst (mockPredict sample_features sample_source)))).
Proof.
  exact (top_features_names_distinct sample_features sample_source eq_refl).
Defined.

(* ================================================================== *)
(** ** Further properties of [parseFloat] *)

(** A white-space character in front of a string is recognised on the
    bytes it takes, whatever follows. *)
Lemma space_width_app (ws s : string) (w : nat) :
  Parse.space_width ws = S w ->
  Parse.space_width (ws ++ s) = S w /\ (w < String.length ws)%nat.
Proof.
  unfold Parse.space_width.
  destruct ws as [|c1 [|c2 [|c3 t3]]]; cbn [append String.length];
    intro H; try discriminate H;
    repeat match type of H with
           | context [if ?b then _ else _] => destruct b
           end;
    try discriminate H; injection H as <-; split; try reflexivity; lia.
Qed.

Lemma drop_space_app (ws s : string) : forall skip : nat,
  (skip <= String.length ws)%nat ->
  Parse.drop_space skip ws = "" ->
  Parse.drop_space skip (ws ++ s) = Parse.drop_space 0 s.
Proof.
  induction ws as [|c t IH]; intros skip Hskip H.
  - simpl in Hskip. assert (skip = 0%nat) by lia. subst skip. reflexivity.
  - destruct skip as [|k].
    + cbn [Parse.drop_space] in H.
      destruct (Parse.space_width (String c t)) as [|w] eqn:E;
        [discriminate H|].
      destruct (space_width_app (String c t) s w E) as [E' Hw].
      cbn [append] in E' |- *. cbn [Parse.drop_space]. rewrite E'.
      apply IH; [simpl in Hw; lia | exact H].
    + cbn [append Parse.drop_space] in H |- *.
      apply IH; [simpl in Hskip; lia | exact H].
Qed.

(** X8.  White space in front of an element does not change what it
    parses to. *)
Theorem parseFloat_skips_leading_space :
  forall ws s : string,
    blank ws = true ->
    parseFloat (JStr (ws ++ s)) = parseFloat (JStr s).
Proof.
  intros ws s H. unfold parseFloat. cbn [converts parse_text].
  unfold Parse.parseFloat_string.
  assert (E : Parse.trim_start (ws ++ s) = Parse.trim_start s).
  { unfold Parse.trim_start. apply drop_space_app; [lia|].
    exact (trim_start_blank ws H). }
  rewrite E. reflexivity.
Qed.

Lemma parseFloat_skips_leading_space_witness :
  parseFloat (JStr ("  " ++ "4.5")) = parseFloat (JStr "4.5").
Proof. apply parseFloat_skips_leading_space. reflexivity. Defined.

(** Reading the digits of a printed number accumulates its value. *)
Lemma digits_of_numeral (d : Decimal.uint) (rest : string) :
  ends_number rest = true ->
  forall (acc : nat) (n : nat),
    Parse.digits (DecimalString.NilEmpty.string_of_uint d ++ rest) (Z.of_nat acc) n
    = (Z.of_nat (Nat.of_uint_acc d acc), (n + Decimal.nb_digits d)%nat, rest).
Proof.
  intro Hrest.
  induction d; intros acc n; cbn [DecimalString.NilEmpty.string_of_uint append];
    try (cbn [Parse.digits];
         match goal with
         | |- context [Parse.is_digit ?c] =>
             replace (Parse.is_digit c) with true by reflexivity;
             let v := eval vm_compute in (Parse.digit_value c) in
             change (Parse.digit_value c) with v
         end;
         cbn [Nat.of_uint_acc Decimal.nb_digits];
         rewrite Nat.tail_mul_spec;
         match goal with
         | |- Parse.digits _ ?z _ = (Z.of_nat (Nat.of_uint_acc _ ?a), _, _) =>
             replace z with (Z.of_nat a) by lia
         end;
         rewrite IHd; f_equal; f_equal; lia).
  cbn [Nat.of_uint_acc Decimal.nb_digits]. rewrite Nat.add_0_r.
  destruct rest as [|c t]; [reflexivity|].
  cbn [Parse.digits]. unfold ends_number in Hrest.
  rewrite negb_true_iff in Hrest.
  apply orb_false_iff in Hrest. destruct Hrest as [Hrest _].
  apply orb_false_iff in Hrest. destruct Hrest as [Hrest _].
  apply orb_false_iff in Hrest. destruct Hrest as [Hrest _].
  rewrite Hrest. reflexivity.
Qed.

Lemma no_fraction (rest : string) :
  ends_number rest = true ->
  match rest with
  | String "." t => Parse.digits t 0%Z 0%nat
  | _ => (0%Z, 0%nat, rest)
  end = (0%Z, 0%nat, rest).
Proof.
  destruct rest as [|c t]; [reflexivity|]. intro H.
  destruct c as [[] [] [] [] [] [] [] []];
    try reflexivity; vm_compute in H; discriminate H.
Qed.

Lemma no_exponent (rest : string) :
  ends_number rest = true -> Parse.exponent rest = 0%Z.
Proof.
  destruct rest as [|c t]; [reflexivity|]. intro H.
  destruct c as [[] [] [] [] [] [] [] []];
    try reflexivity; vm_compute in H; discriminate H.
Qed.

Lemma trim_start_digit (c : ascii) (t : string) :
  Parse.is_digit c = true -> Parse.trim_start (String c t) = String c t.
Proof.
  intro H.
  destruct c as [[] [] [] [] [] [] [] []];
    vm_compute in H; try discriminate H; reflexivity.
Qed.

(** X9.  The decimal numeral of a natural number up to 2^53, the range
    in which every integer is a double, parses to that number, also when
    text follows that cannot continue a number: the element is accepted
    with the value of its numeric prefix. *)
Theorem parseFloat_reads_numerals :
  forall (n : nat) (rest : string),
    (Z.of_nat n <= 2 ^ 53)%Z ->
    ends_number rest = true ->
    exists q : Q,
      parseFloat (JStr (numeral n ++ rest)) = Normal (Finite q)
      /\ q == inject_Z (Z.of_nat n).
Proof.
  intros n rest _ Hrest. unfold parseFloat. cbn [converts parse_text].
  unfold numeral.
  assert (Hnil : Nat.to_uint n <> Decimal.Nil).
  { rewrite <- (DecimalNat.Unsigned.of_to n) at 1.
    rewrite DecimalNat.Unsigned.to_of. apply DecimalFacts.unorm_nonnil. }
  pose proof (DecimalNat.Unsigned.of_to n) as Hval.
  pose proof (digits_of_numeral (Nat.to_uint n) rest Hrest 0 0) as Hdig.
  unfold Nat.of_uint in Hval. rewrite Hval in Hdig. cbn [Z.of_nat] in Hdig.
  destruct (Nat.to_uint n) as [|d|d|d|d|d|d|d|d|d|d] eqn:Ed;
    [contradiction Hnil; reflexivity | ..];
    (cbn [DecimalString.NilEmpty.string_of_uint append] in *;
     unfold Parse.parseFloat_string;
     rewrite trim_start_digit by reflexivity;
     cbv beta iota; unfold Parse.unsigned_literal;
     match goal with
     | |- context [prefix "Infinity" ?s] =>
         replace (prefix "Infinity" s) with false by reflexivity
     end;
     rewrite Hdig, (no_fraction rest Hrest), (no_exponent rest Hrest);
     cbn [Decimal.nb_digits Nat.add Nat.eqb andb];
     eexists; (split; [reflexivity|]);
     unfold Qeq, Qdiv, Qmult, Qinv, inject_Z; simpl; lia).
Qed.

Lemma parseFloat_reads_numerals_witness :
  exists q : Q,
    parseFloat (JStr (numeral 300 ++ " K")) = Normal (Finite q)
    /\ q == inject_Z (Z.of_nat 300).
Proof.
  apply parseFloat_reads_numerals; [vm_compute; discriminate | reflexivity].
Defined.

(* ================================================================== *)
(** ** The form state *)

Section ObjectFacts.
Variable V : Type.

Lemma get_set_same (key : string) (v : V) (o : App.object V) :
  App.get key (App.set key v o) = Some v.
Proof.
  induction o as [|[k x] t IH]; simpl.
  - now rewrite String.eqb_refl.
  - destruct (String.eqb k key) eqn:E; simpl; rewrite E; auto.
Qed.

Lemma get_set_other (key key' : string) (v : V) (o : App.object V) :
  key' <> key -> App.get key' (App.set key v o) = App.get key' o.
Proof.
  intro Hne. induction o as [|[k x] t IH]; simpl.
  - apply String.eqb_neq in Hne. rewrite String.eqb_sym in Hne.
    now rewrite Hne.
  - destruct (String.eqb k key) eqn:E; simpl.
    + apply String.eqb_eq in E. subst k.
      apply String.eqb_neq in Hne. rewrite String.eqb_sym in Hne.
      now rewrite Hne.
    + destruct (String.eqb k key'); auto.
Qed.

Lemma get_In_keys (key : string) (v : V) (o : App.object V) :
  App.get key o = Some v -> In key (App.Object_keys o).
Proof.
  induction o as [|[k x] t IH]; simpl; [discriminate|].
  destruct (String.eqb_spec k key) as [E|E]; [left; exact E|].
  intro H. right. exact (IH H).
Qed.

Lemma keys_set_present (key : string) (v : V) (o : App.object V) :
  In key (App.Object_keys o) ->
  App.Object_keys (App.set key v o) = App.Object_keys o.
Proof.
  induction o as [|[k x] t IH]; simpl; [contradiction|].
  intros [->|H].
  - now rewrite String.eqb_refl.
  - destruct (String.eqb k key); simpl; [reflexivity|]. now rewrite IH.
Qed.

Lemma values_set (P : V -> Prop) (key : string) (v : V) (o : App.object V) :
  P v -> Forall P (App.Object_values o) ->
  Forall P (App.Object_values (App.set key v o)).
Proof.
  intros Hv. induction o as [|[k x] t IH]; simpl; intro H.
  - repeat constructor. exact Hv.
  - inversion H as [|? ? Hx Ht]; subst.
    destruct (String.eqb k key); simpl; constructor; auto.
Qed.
End ObjectFacts.

Lemma or_else_not_NaN (x y : number) :
  isNaN y = false -> isNaN (App.or_else x y) = false.
Proof.
  intro Hy. unfold App.or_else.
  destruct (isNaN x) eqn:E; simpl; [exact Hy|].
  destruct (strict_eq x 0); [exact Hy | exact E].
Qed.

Lemma set_well_formed (key : string) (v : number) (f : App.object number) :
  In key featureNames -> isNaN v = false ->
  well_formed f -> well_formed (App.set key v f).
Proof.
  intros Hkey Hv [Hkeys Hvals]. split.
  - rewrite keys_set_present; [exact Hkeys | rewrite Hkeys; exact Hkey].
  - apply values_set; assumption.
Qed.

Lemma defaults_well_formed : well_formed App.FEATURE_DEFAULTS.
Proof. split; [reflexivity | repeat constructor]. Qed.

Lemma merge_well_formed (data : json) (keys : list string) :
  forall acc f : App.object number,
    (forall k, In k keys -> In k featureNames) ->
    well_formed acc ->
    App.forEach_completion (App.merge data) keys acc = Normal f ->
    well_formed f.
Proof.
  induction keys as [|k keys IH]; intros acc f Hkeys Hacc H.
  - injection H as <-. exact Hacc.
  - cbn [App.forEach_completion] in H.
    destruct (App.merge data acc k) as [acc'|m] eqn:E; [|discriminate H].
    apply (IH acc' f); [intros; apply Hkeys; right; assumption | | exact H].
    unfold App.merge in E.
    destruct (App.property data k) as [v|];
      [|injection E as <-; exact Hacc].
    destruct (parseFloat v) as [n|m]; [|discriminate E].
    injection E as <-.
    destruct (isNaN n) eqn:En; [exact Hacc|].
    apply set_well_formed;
      [apply Hkeys; left; reflexivity | exact En | exact Hacc].
Qed.

Lemma newFeatures_well_formed (data : json) (f : App.object number) :
  App.newFeatures data = Normal f -> well_formed f.
Proof.
  apply merge_well_formed; [|exact defaults_well_formed].
  intros k Hk. exact Hk.
Qed.

Lemma step_well_formed (JSON_parse : string -> option json)
    (st : App.State) (e : event) :
  from_form e -> well_formed (App.features st) ->
  well_formed (App.features (step JSON_parse st e)).
Proof.
  intros He Hst. destruct e as [feature value | name content]; simpl.
  - apply set_well_formed; [exact He | | exact Hst].
    apply or_else_not_NaN. reflexivity.
  - unfold App.onload.
    destruct (App.endsWith name ".json").
    + destruct (JSON_parse content) as [d|]; [|exact Hst].
      destruct (truthy d); [|exact Hst].
      destruct (App.newFeatures d) as [f|m] eqn:E; [|exact Hst].
      exact (newFeatures_well_formed d f E).
    + destruct (App.endsWith name ".csv"); [|exact Hst].
      destruct (App.csv_data content) as [d|]; [|exact Hst].
      destruct (truthy d); [|exact Hst].
      destruct (App.newFeatures d) as [f|m] eqn:E; [|exact Hst].
      exact (newFeatures_well_formed d f E).
Qed.

(** X10.  Whatever the user types into the nine fields and whatever
    files are loaded, the form state keeps the nine feature names in
    their fixed order and never holds [NaN]. *)
Theorem form_state_stays_well_formed :
  forall (JSON_parse : string -> option json) (events : list event),
    Forall from_form events ->
    well_formed (App.features (run JSON_parse events)).
Proof.
  intros JSON_parse events. unfold run.
  assert (H : forall st, well_formed (App.features st) ->
                         Forall from_form events ->
                         well_formed
                           (App.features
                              (fold_left (step JSON_parse) events st))).
  { induction events as [|e events IH]; intros st Hst Hev; [exact Hst|].
    inversion Hev as [|? ? He Hev']; subst. simpl.
    apply IH; [apply step_well_formed; assumption | exact Hev']. }
  intro Hev. apply H; [exact defaults_well_formed | exact Hev].
Qed.

Lemma form_state_stays_well_formed_witness :
  well_formed
    (App.features
       (run (fun _ => None)
          [Change "koi_prad" "abc"; Upload "kepler.csv" "a,b";
           Change "koi_teq" "Infinity"])).
Proof.
  apply form_state_stays_well_formed.
  repeat constructor; simpl; tauto.
Defined.

(** X11.  Editing a field stores what the text parses to, and 0 when it
    parses to nothing (cleared field, stray text) or to zero; the other
    fields keep their values and the order of the fields is unchanged. *)
Theorem edit_stores_parsed_value_or_zero :
  forall (feature value : string) (st : App.State),
    In feature (App.Object_keys (App.features st)) ->
    let st' := App.handleFeatureChange feature value st in
    App.get feature (App.features st')
    = Some (App.or_else (Parse.parseFloat_string value) 0)
    /\ (blank value = true \/ non_numeric_token value = true ->
        App.get feature (App.features st') = Some (Finite 0))
    /\ (forall other, other <> feature ->
          App.get other (App.features st')
          = App.get other (App.features st))
    /\ App.Object_keys (App.features st')
       = App.Object_keys (App.features st).
Proof.
  intros feature value st Hin st'. subst st'. simpl.
  split; [apply get_set_same|]. split.
  - intro H. rewrite get_set_same.
    assert (E : Parse.parseFloat_string value = NaN).
    { destruct H as [H|H];
        [exact (parseFloat_blank value H)
        | exact (parseFloat_non_numeric value H)]. }
    rewrite E. reflexivity.
  - split; [intros other Hne; apply get_set_other; exact Hne|].
    apply keys_set_present. exact Hin.
Qed.

Lemma edit_stores_parsed_value_or_zero_witness :
  App.get "koi_period"
    (App.features (App.handleFeatureChange "koi_period" "" App.initial))
  = Some (Finite 0).
Proof.
  refine (proj1 (proj2 (edit_stores_parsed_value_or_zero "koi_period" ""
                          App.initial _)) _).
  - left. reflexivity.
  - left. reflexivity.
Defined.

(** The entry of a key after the merge rounds of a list of keys. *)
Lemma merge_rounds_absent (data : json) (key : string) (keys : list string) :
  forall acc f : App.object number,
    ~ In key keys ->
    App.forEach_completion (App.merge data) keys acc = Normal f ->
    App.get key f = App.get key acc.
Proof.
  induction keys as [|k keys IH]; intros acc f Hnot H.
  - injection H as <-. reflexivity.
  - cbn [App.forEach_completion] in H.
    destruct (App.merge data acc k) as [acc'|m] eqn:E; [|discriminate H].
    rewrite (IH acc' f) by (auto; intro Hin; apply Hnot; right; exact Hin).
    assert (Hne : key <> k) by (intro E'; apply Hnot; left; symmetry; exact E').
    unfold App.merge in E.
    destruct (App.property data k) as [v|];
      [|injection E as <-; reflexivity].
    destruct (parseFloat v) as [n|m]; [|discriminate E].
    injection E as <-.
    destruct (negb (isNaN n)); [|reflexivity].
    apply get_set_other. exact Hne.
Qed.

Lemma merge_rounds_present (data : json) (key : string) (keys : list string) :
  forall acc f : App.object number,
    NoDup keys -> In key keys ->
    App.forEach_completion (App.merge data) keys acc = Normal f ->
    App.get key f
    = match App.property data key with
      | Some v =>
          match parseFloat v with
          | Normal n => if isNaN n then App.get key acc else Some n
          | Throw _ => App.get key acc
          end
      | None => App.get key acc
      end.
Proof.
  induction keys as [|k keys IH]; intros acc f Hnd Hin H; [contradiction|].
  inversion Hnd as [|? ? Hk Hnd']; subst.
  cbn [App.forEach_completion] in H.
  destruct (App.merge data acc k) as [acc'|m] eqn:E; [|discriminate H].
  destruct Hin as [->|Hin].
  - rewrite (merge_rounds_absent data key keys acc' f Hk H).
    unfold App.merge in E.
    destruct (App.property data key) as [v|];
      [|injection E as <-; reflexivity].
    destruct (parseFloat v) as [n|m']; [|discriminate E].
    injection E as <-.
    destruct (isNaN n); simpl; [reflexivity|]. apply get_set_same.
  - rewrite (IH acc' f Hnd' Hin H).
    assert (Hne : key <> k) by (intro E'; subst; contradiction).
    assert (Hget : App.get key acc' = App.get key acc).
    { unfold App.merge in E.
      destruct (App.property data k) as [v|];
        [|injection E as <-; reflexivity].
      destruct (parseFloat v) as [n|m']; [|discriminate E].
      injection E as <-.
      destruct (negb (isNaN n)); [|reflexivity].
      apply get_set_other. exact Hne. }
    rewrite Hget. reflexivity.
Qed.

(** The merge completes when [parseFloat] does on every value it looks
    at, and throws when it throws on one of them. *)
Lemma merge_completes (data : json) (keys : list string) :
  forall acc : App.object number,
    (forall key v, In key keys -> App.property data key = Some v ->
                   exists n, parseFloat v = Normal n) ->
    exists f, App.forEach_completion (App.merge data) keys acc = Normal f.
Proof.
  induction keys as [|k keys IH]; intros acc Hok.
  - eexists. reflexivity.
  - cbn [App.forEach_completion]. unfold App.merge at 1.
    destruct (App.property data k) as [v|] eqn:Ev.
    + destruct (Hok k v (or_introl eq_refl) Ev) as [n Hn]. rewrite Hn.
      apply IH. intros key v' Hin. apply Hok. right. exact Hin.
    + apply IH. intros key v' Hin. apply Hok. right. exact Hin.
Qed.

Lemma merge_throws (data : json) (keys : list string) :
  forall acc : App.object number,
    (exists key v message,
        In key keys /\ App.property data key = Some v
        /\ parseFloat v = Throw message) ->
    exists message,
      App.forEach_completion (App.merge data) keys acc = Throw message.
Proof.
  induction keys as [|k keys IH]; intros acc (key & v & m & Hin & Hv & Hm);
    [contradiction|].
  cbn [App.forEach_completion].
  destruct (App.merge data acc k) as [acc'|m'] eqn:E;
    [|eexists; reflexivity].
  apply IH. exists key, v, m. split; [|split; assumption].
  destruct Hin as [->|Hin]; [|exact Hin].
  exfalso. unfold App.merge in E. rewrite Hv, Hm in E. discriminate E.
Qed.

Lemma featureNames_NoDup : NoDup featureNames.
Proof. repeat constructor; cbn; intuition discriminate. Qed.

Lemma merged_entry (data : json) (f : App.object number) (key : string)
    (dflt : number) :
  App.newFeatures data = Normal f ->
  App.get key App.FEATURE_DEFAULTS = Some dflt ->
  App.get key f
  = Some (match App.property data key with
          | Some v =>
              match parseFloat v with
              | Normal n => if isNaN n then dflt else n
              | Throw _ => dflt
              end
          | None => dflt
          end).
Proof.
  intros Hf Hd. unfold App.newFeatures in Hf.
  assert (Hin : In key featureNames).
  { exact (get_In_keys _ key dflt App.FEATURE_DEFAULTS Hd). }
  rewrite (merge_rounds_present data key _ _ f featureNames_NoDup Hin Hf), Hd.
  destruct (App.property data key) as [v|]; [|reflexivity].
  destruct (parseFloat v) as [n|m]; [|reflexivity].
  destruct (isNaN n); reflexivity.
Qed.

(** X12.  Loading a JSON file whose content parses to a truthy value
    starts from the defaults, not from the current form.  When
    [parseFloat] completes on the values of the feature keys, each
    feature takes the uploaded value that parses, or else its default,
    the data is recorded and the error cleared.  When it throws on one of
    them (an object with an own [toString] property), the [catch] sets
    the parse error and nothing else changes. *)
Theorem upload_overrides_defaults :
  forall (JSON_parse : string -> option json) (name content : string)
         (st : App.State) (data : json),
    App.endsWith name ".json" = true ->
    JSON_parse content = Some data ->
    truthy data = true ->
    let st' := App.onload JSON_parse name content st in
    ((forall key v, In key featureNames ->
                    App.property data key = Some v ->
                    exists n, parseFloat v = Normal n) ->
     (forall key dflt,
         App.get key App.FEATURE_DEFAULTS = Some dflt ->
         App.get key (App.features st')
         = Some (match App.property data key with
                 | Some v =>
                     match parseFloat v with
                     | Normal n => if isNaN n then dflt else n
                     | Throw _ => dflt
                     end
                 | None => dflt
                 end))
     /\ App.uploadedData st' = Some data
     /\ App.error st' = None)
    /\ ((exists key v message,
            In key featureNames /\ App.property data key = Some v
            /\ parseFloat v = Throw message) ->
        st' = App.setError (Some App.parse_error) st).
Proof.
  intros JSON_parse name content st data Hname Hparse Htruthy st'.
  subst st'. unfold App.onload. rewrite Hname, Hparse, Htruthy. split.
  - intro Hok.
    destruct (merge_completes data featureNames App.FEATURE_DEFAULTS Hok)
      as [f Hf].
    change (App.forEach_completion (App.merge data) featureNames
              App.FEATURE_DEFAULTS) with (App.newFeatures data) in Hf.
    rewrite Hf. cbn [App.features App.uploadedData App.error App.setError
                     App.setUploadedData App.setFeatures].
    split; [|split; reflexivity].
    intros key dflt Hd. exact (merged_entry data f key dflt Hf Hd).
  - intro Hthrow.
    destruct (merge_throws data featureNames App.FEATURE_DEFAULTS Hthrow)
      as [m Hm].
    change (App.forEach_completion (App.merge data) featureNames
              App.FEATURE_DEFAULTS) with (App.newFeatures data) in Hm.
    rewrite Hm. reflexivity.
Qed.

Lemma upload_overrides_defaults_witness :
  App.get "koi_prad"
    (App.features
       (App.onload (fun _ => Some sample_upload) "kepler.json" ""
          App.initial))
  = Some (Finite 15)
  /\ App.get "koi_teq"
       (App.features
          (App.onload (fun _ => Some sample_upload) "kepler.json" ""
             App.initial))
     = Some (Finite 300.0).
Proof.
  assert (Hok : forall key v, In key featureNames ->
                  App.property sample_upload key = Some v ->
                  exists n, parseFloat v = Normal n).
  { intros key v _ Hv. cbn in Hv.
    repeat match type of Hv with
           | (if ?b then _ else _) = _ => destruct b
           end;
      try discriminate Hv; injection Hv as <-; eexists; reflexivity. }
  pose proof (proj1 (upload_overrides_defaults
                       (fun _ => Some sample_upload) "kepler.json" ""
                       App.initial sample_upload eq_refl eq_refl eq_refl)
                Hok) as H.
  split.
  - exact (proj1 H "koi_prad" (Finite 2.0) eq_refl).
  - exact (proj1 H "koi_teq" (Finite 300.0) eq_refl).
Defined.

(* ================================================================== *)
(** ** CSV upload *)

Lemma csv_data_some (content line : string) :
  nth_error (App.split App.newline content) 1 = Some line ->
  let values :=
    map (fun v => Parse.parseFloat_string (App.trim v)) (App.split "," line) in
  (9 <= List.length values)%nat ->
  App.csv_data content
  = Some (JObj (App.forEach_indexed
                  (fun kv index =>
                     (fst kv, JNum (App.or_else (nth index values NaN)
                                      (snd kv))))
                  0 App.FEATURE_DEFAULTS)).
Proof.
  intros Hline values Hlen. unfold App.csv_data. rewrite Hline.
  fold values. apply Nat.leb_le in Hlen. rewrite Hlen. reflexivity.
Qed.

(** X13.  From a CSV file the form takes the cells of the second line, in
    the fixed feature order; a cell that parses to nothing, or to zero,
    is replaced by the default of its feature. *)
Theorem csv_upload_reads_second_line :
  forall (JSON_parse : string -> option json) (name content line : string)
         (st : App.State) (i : nat) (key : string) (dflt : number),
    App.endsWith name ".json" = false ->
    App.endsWith name ".csv" = true ->
    nth_error (App.split App.newline content) 1 = Some line ->
    let values :=
      map (fun v => Parse.parseFloat_string (App.trim v))
        (App.split "," line) in
    (9 <= List.length values)%nat ->
    nth_error App.FEATURE_DEFAULTS i = Some (key, dflt) ->
    App.get key (App.features (App.onload JSON_parse name content st))
    = Some (App.or_else (nth i values NaN) dflt).
Proof.
  intros JSON_parse name content line st i key dflt Hjson Hcsv Hline values
    Hlen Hnth.
  unfold App.onload. rewrite Hjson, Hcsv.
  rewrite (csv_data_some content line Hline Hlen). fold values.
  set (data := JObj (App.forEach_indexed
                       (fun kv index =>
                          (fst kv, JNum (App.or_else (nth index values NaN)
                                           (snd kv))))
                       0 App.FEATURE_DEFAULTS)).
  cbn [truthy].
  assert (Hok : forall k v, In k featureNames ->
                  App.property data k = Some v ->
                  exists n, parseFloat v = Normal n).
  { intros k v _ Hv. subst data.
    cbn [App.property App.forEach_indexed App.FEATURE_DEFAULTS fst snd
         own_property] in Hv.
    repeat match type of Hv with
           | (if ?b then _ else _) = _ => destruct b
           end;
      try discriminate Hv; injection Hv as <-; eexists; reflexivity. }
  destruct (merge_completes data featureNames App.FEATURE_DEFAULTS Hok)
    as [f Hf].
  change (App.forEach_completion (App.merge data) featureNames
            App.FEATURE_DEFAULTS) with (App.newFeatures data) in Hf.
  rewrite Hf.
  cbn [App.features App.setError App.setUploadedData App.setFeatures].
  do 9 (destruct i as [|i];
        [ injection Hnth as <- <-;
          erewrite (merged_entry data f) by (exact Hf || reflexivity);
          subst data;
          cbn [App.property App.forEach_indexed App.FEATURE_DEFAULTS fst snd];
          cbn [own_property String.eqb Ascii.eqb Bool.eqb];
          unfold parseFloat; cbn [converts parse_text];
          rewrite or_else_not_NaN by reflexivity; reflexivity
        | ]).
  destruct i; discriminate Hnth.
Qed.

Lemma csv_upload_reads_second_line_witness :
  App.get "koi_prad"
    (App.features (App.onload (fun _ => None) "kepler.csv" sample_csv
                     App.initial))
  = Some (Finite 2.0).
Proof.
  exact (csv_upload_reads_second_line (fun _ => None) "kepler.csv" sample_csv
           "3.5, 0 ,0.05,89,x,4.4,1,1,5700" App.initial 1 "koi_prad"
           (Finite 2.0) eq_refl eq_refl eq_refl (Nat.le_refl 9) eq_refl).
Defined.

(** X14.  A CSV file with no second line, or with fewer than nine cells
    on it, is ignored without a message: the whole state stays as it
    was. *)
Theorem short_csv_is_ignored :
  forall (JSON_parse : string -> option json) (name content : string)
         (st : App.State),
    App.endsWith name ".json" = false ->
    App.endsWith name ".csv" = true ->
    (match nth_error (App.split App.newline content) 1 with
     | None => True
     | Some line => (List.length (App.split "," line) < 9)%nat
     end) ->
    App.onload JSON_parse name content st = st.
Proof.
  intros JSON_parse name content st Hjson Hcsv Hshort.
  unfold App.onload, App.csv_data. rewrite Hjson, Hcsv.
  destruct (nth_error (App.split App.newline content) 1) as [line|];
    [|reflexivity].
  rewrite length_map.
  destruct (Nat.leb_spec 9 (List.length (App.split "," line)));
    [lia | reflexivity].
Qed.

Lemma short_csv_is_ignored_witness :
  App.onload (fun _ => None) "kepler.csv" "1,2,3,4,5,6,7,8,9" App.initial
  = App.initial.
Proof.
  apply short_csv_is_ignored; reflexivity || exact I.
Defined.

(* ================================================================== *)
(** ** The prediction request *)

Lemma stringify_finite (values : list number) :
  Forall finite_number values ->
  map parse_text (map App.stringify_number values) = values
  /\ Forall (fun e => exists n, parseFloat e = Normal n /\ n <> NaN)
       (map App.stringify_number values).
Proof.
  induction 1 as [|v values [q ->] H [IHmap IHall]]; simpl.
  - split; constructor.
  - rewrite IHmap. split; [reflexivity|].
    constructor; [|exact IHall].
    exists (Finite q). split; [reflexivity | discriminate].
Qed.

Lemma stringify_converts (values : list number) :
  forallb converts (map App.stringify_number values) = true.
Proof.
  induction values as [|v values IH]; [reflexivity|].
  simpl. rewrite IH. destruct v; reflexivity.
Qed.

Lemma mockPredict_transportable (features : list number) (s : entropy) :
  List.length features = 9%nat ->
  Forall finite_number features ->
  transportable (fst (mockPredict features s)).
Proof.
  intros Hlen Hfin. unfold transportable.
  split; [rewrite predicted_class_closed_form; discriminate|].
  rewrite mockPredict_probabilities.
  destruct (normalize_finite features) as (c & d & f & E & _).
  rewrite E. cbn [Confirmed Candidate False_Positive].
  split; [exists c; reflexivity|]. split; [exists d; reflexivity|].
  split; [exists f; reflexivity|].
  rewrite mockPredict_top_features.
  apply Forall_forall. intros e He. apply rank_features_In in He.
  destruct (shapValues_In features 0 s e He) as (j & Hj & Hf & Hv & Hi).
  split.
  - rewrite Hf. apply nth_error_Some.
    change (List.length featureNames) with 9%nat. simpl. lia.
  - split.
    + rewrite Hi, importance_of_draw. eexists. reflexivity.
    + rewrite Forall_forall in Hfin. apply Hfin.
      apply nth_error_In with j. exact Hv.
Qed.

(** X15.  With the nine fields holding finite numbers, Classify is
    always served: the dashboard ends up showing the prediction of
    [mockPredict] on the form values, no error, and that prediction has
    a class and only finite numbers, so JSON carries it unchanged. *)
Theorem classify_is_served_for_finite_fields :
  forall (st : App.State) (s : entropy),
    App.Object_keys (App.features st) = featureNames ->
    Forall finite_number (App.Object_values (App.features st)) ->
    let values := App.Object_values (App.features st) in
    let st' := fst (App.handlePredict st s) in
    App.prediction st' = Some (fst (mockPredict values s))
    /\ App.error st' = None
    /\ App.loading st' = false
    /\ App.features st' = App.features st
    /\ transportable (fst (mockPredict values s))
    /\ pos (snd (App.handlePredict st s)) = (pos s + 9)%nat.
Proof.
  intros st s Hkeys Hfin values st'. subst st'.
  assert (Hlen : List.length values = 9%nat).
  { subst values. unfold App.Object_values. rewrite length_map.
    rewrite <- (length_map fst). fold (App.Object_keys (App.features st)).
    rewrite Hkeys. reflexivity. }
  destruct (stringify_finite values Hfin) as [Hmap Hall].
  unfold App.handlePredict, bind.
  cbn [App.features App.setError App.setLoading]. fold values.
  rewrite served_request by (rewrite ?length_map; assumption).
  rewrite Hmap.
  pose proof (mockPredict_transportable values s Hlen Hfin) as Htr.
  pose proof (mockPredict_state values s) as Hst.
  unfold Array_map in Hst. rewrite map_from_state, Hlen in Hst.
  destruct (mockPredict values s) as [p s1]. cbn in Htr, Hst |- *.
  rewrite Hst.
  do 4 (split; [reflexivity|]). split; [exact Htr | reflexivity].
Qed.

Lemma classify_is_served_for_finite_fields_witness :
  App.prediction (fst (App.handlePredict App.initial sample_source))
  = Some (fst (mockPredict (App.Object_values App.FEATURE_DEFAULTS)
                 sample_source)).
Proof.
  refine (proj1 (classify_is_served_for_finite_fields App.initial
                   sample_source eq_refl _)).
  repeat constructor; eexists; reflexivity.
Defined.

(** X16.  A field holding an infinity (a file can put one there) is
    written as [null] in the request; the back end rejects it, and the
    dashboard reports a connection failure, keeps the previous
    prediction and leaves the random source untouched. *)
Theorem infinite_field_shows_connection_error :
  forall (st : App.State) (s : entropy),
    Exists (fun v => ~ finite_number v)
      (App.Object_values (App.features st)) ->
    let st' := fst (App.handlePredict st s) in
    App.error st' = Some App.connection_error
    /\ App.prediction st' = App.prediction st
    /\ App.loading st' = false
    /\ snd (App.handlePredict st s) = s.
Proof.
  intros st s Hex st'. subst st'.
  set (items := map App.stringify_number
                  (App.Object_values (App.features st))).
  assert (Hconv : forallb converts items = true)
    by apply stringify_converts.
  assert (Hnan : existsb isNaN (map parse_text items) = true).
  { apply (existsb_isNaN items Hconv). subst items. apply Exists_exists in Hex.
    destruct Hex as (v & Hin & Hv). apply Exists_exists.
    exists (App.stringify_number v). split; [apply in_map; exact Hin|].
    destruct v as [| | q |]; try reflexivity.
    exfalso. apply Hv. exists q. reflexivity. }
  assert (Hresp : exists msg, predict (Some (JArr items)) s = (Err400 msg, s)).
  { destruct (Nat.eq_dec (List.length items) 9) as [E|E].
    - rewrite (predict_nine items s E), Hconv, Hnan. eexists. reflexivity.
    - rewrite (predict_wrong_count items s E). eexists. reflexivity. }
  destruct Hresp as [msg Hresp].
  unfold App.handlePredict, bind.
  cbn [App.features App.setError App.setLoading]. fold items.
  rewrite Hresp. cbn. repeat split.
Qed.

Lemma infinite_field_shows_connection_error_witness :
  App.error (fst (App.handlePredict infinite_radius_state sample_source))
  = Some App.connection_error.
Proof.
  refine (proj1 (infinite_field_shows_connection_error infinite_radius_state
                   sample_source _)).
  right. left. intros [q Hq]. discriminate Hq.
Defined.

(* ================================================================== *)
(** ** What the dashboard shows *)

(** X17.  In the doubles the dashboard computes with, the three bars of
    the confidence chart each lie in the axis range from 0 to 100 and
    add up to 100 within 1e-9, whatever the features. *)
Theorem chart_bars_fill_the_axis :
  forall features : list Floats.PrimFloat.float,
    Binary64.fills_axis (Binary64.chartData features) = true.
Proof.
  intro features. unfold Binary64.chartData, Binary64.heuristics.
  repeat match goal with
         | |- context [if ?c then PrimFloat.add _ _ else _] => destruct c
         end; vm_compute; reflexivity.
Qed.

(** X18.  In doubles, the confidence shown is the bar of the predicted
    class, and it lies between 34 and 56 within 1e-9. *)
Theorem confidence_is_the_predicted_bar :
  forall features : list Floats.PrimFloat.float,
    Binary64.bar_of (Binary64.predicted_class features)
      (Binary64.chartData features)
    = Some (Binary64.confidence features)
    /\ Binary64.near_34_to_56 (Binary64.confidence features) = true.
Proof.
  intro features.
  unfold Binary64.chartData, Binary64.confidence, Binary64.predicted_class,
    Binary64.heuristics.
  repeat match goal with
         | |- context [if ?c then PrimFloat.add _ _ else _] => destruct c
         end; vm_compute; split; reflexivity.
Qed.

(** X19.  The class is shown in green when it is Confirmed and in red
    otherwise; the yellow of Candidate and the grey fallback are never
    used for an answer of the back end. *)
Theorem class_colour_is_green_or_red :
  forall (features : list number) (s : entropy),
    let p := fst (mockPredict features s) in
    let confirmed := in_window features && negb (short_period features) in
    App.getClassColor (predicted_class p)
    = (if confirmed then "text-green-400" else "text-red-400")
    /\ App.getClassBgColor (predicted_class p)
       = (if confirmed then "bg-green-500/10 border-green-500/20"
          else "bg-red-500/10 border-red-500/20").
Proof.
  intros features s p confirmed. subst p confirmed.
  rewrite predicted_class_closed_form.
  destruct (in_window features && negb (short_period features));
    split; reflexivity.
Qed.

(** X20.  Every feature the back end reports has a display label: the
    lookup in [FEATURE_LABELS] never comes back empty. *)
Theorem top_features_have_labels :
  forall (features : list number) (s : entropy),
    List.length features = 9%nat ->
    Forall (fun e => exists name label : string,
                feature e = Some name
                /\ App.get name App.FEATURE_LABELS = Some label)
      (top_features (fst (mockPredict features s))).
Proof.
  intros features s Hlen. rewrite mockPredict_top_features.
  apply Forall_forall. intros e He. apply rank_features_In in He.
  destruct (shapValues_In features 0 s e He) as (j & Hj & Hf & _).
  rewrite Hlen in Hj. cbn [Nat.add] in Hf. rewrite Hf.
  do 9 (destruct j as [|j]; [eexists _, _; split; reflexivity|]).
  lia.
Qed.

Lemma top_features_have_labels_witness :
  Forall (fun e => exists name label : string,
              feature e = Some name
              /\ App.get name App.FEATURE_LABELS = Some label)
    (top_features (fst (mockPredict sample_features sample_source))).
Proof.
  exact (top_features_have_labels sample_features sample_source eq_refl).
Defined.
